(** * Anonymous-messaging service ([src/app.ts]): model and verified properties

    The service is a set of HTTP handlers over two document collections
    (links and messages).  The development embeds

    - the language runtime the handlers rely on: strings as sequences of
      UTF-16 code units, [String.prototype.trim], binary64 Numbers with
      [Math.floor], multiplication, addition and printing of integers;
    - the two collections with the constraints of their schemas
      ([required], [unique], [maxLength]) and the queries the handlers issue;
    - the handlers themselves, one function per route, with the [try]/[catch]
      of each route turning a failed [save] into the 500 response.

    What the process reads from its surroundings (the clock, [uuidv4],
    [Math.random], the verdict of the rate limiter) is an explicit [Env].
    The body of a POST request is whatever [express.json()] parsed: any
    JSON value, or nothing at all. *)

From Stdlib Require Import ZArith NArith List Bool Lia Ascii String.
From Stdlib Require Import Floats.SpecFloat Sorting.Sorted.
From Stdlib Require DecimalPos.
From stdpp Require Import base decidable option numbers list.

Local Open Scope Z_scope.

(** ** Strings *)

(** A string of the language is a finite sequence of 16-bit code units; its
    [length] is the number of code units. *)
Abbreviation jsstring := (list N).

(** String literals of the source (all of them are ASCII). *)
Definition js (s : string) : jsstring :=
  (λ a, N_of_ascii a) <$> list_ascii_of_string s.

(** The code units [trim] strips: WhiteSpace and LineTerminator. *)
Definition is_white_space (c : N) : bool :=
  ((9 <=? c) && (c <=? 13) || (c =? 32) || (c =? 160) || (c =? 5760)
   || (8192 <=? c) && (c <=? 8202) || (c =? 8232) || (c =? 8233)
   || (c =? 8239) || (c =? 8287) || (c =? 12288) || (c =? 65279))%N.

Fixpoint trimStart (s : jsstring) : jsstring :=
  match s with
  | c :: s' => if is_white_space c then trimStart s' else s
  | [] => []
  end.

Definition trimEnd (s : jsstring) : jsstring :=
  reverse (trimStart (reverse s)).

Definition trim (s : jsstring) : jsstring := trimEnd (trimStart s).

(** [s.substring(0, n)] *)
Definition substring0 (n : nat) (s : jsstring) : jsstring := take n s.

(** Truthiness of an optional string ([!x] is its negation): [undefined] and
    the empty string are falsy. *)
Definition truthy (x : option jsstring) : bool :=
  match x with
  | Some (_ :: _) => true
  | _ => false
  end.

(** [x || d] on an optional string. *)
Definition or_default (x : option jsstring) (d : jsstring) : jsstring :=
  match x with
  | Some (c :: s) => c :: s
  | _ => d
  end.

(** A template literal prints [undefined] by its name. *)
Definition template_part (x : option jsstring) : jsstring :=
  default (js "undefined") x.

(** ** Numbers *)

(** Numbers are binary64 values: [spec_float] at precision 53. *)
Definition prec : Z := 53.
Definition emax : Z := 1024.

Definition Number_of_Z (z : Z) : spec_float :=
  binary_normalize prec emax z 0 false.

Definition Number_mul : spec_float → spec_float → spec_float :=
  SFmul prec emax.
Definition Number_add : spec_float → spec_float → spec_float :=
  SFadd prec emax.

(** The integer part [⌊±m·2^e⌋] of a finite nonzero Number. *)
Definition floor_value (s : bool) (m : positive) (e : Z) : Z :=
  Z.shiftl (cond_Zopp s (Z.pos m)) e.

(** [Math.floor]: the integral Number [⌊x⌋]; zeros, infinities and NaN are
    returned as they are. *)
Definition Math_floor (x : spec_float) : spec_float :=
  match x with
  | S754_finite s m e => Number_of_Z (floor_value s m e)
  | _ => x
  end.

(** The mathematical value of an integral Number, [None] for a Number that
    is not an integer. *)
Definition to_integer (x : spec_float) : option Z :=
  match x with
  | S754_zero _ => Some 0
  | S754_finite s m e =>
      if 0 <=? e then Some (cond_Zopp s (Z.pos m) * 2 ^ e)
      else if Z.pos m mod 2 ^ (- e) =? 0
           then Some (cond_Zopp s (Z.pos m) / 2 ^ (- e))
           else None
  | _ => None
  end.

(** Decimal digits of an integer, as code units. *)
Fixpoint uint_digits (d : Decimal.uint) : jsstring :=
  match d with
  | Decimal.Nil => []
  | Decimal.D0 d => 48%N :: uint_digits d
  | Decimal.D1 d => 49%N :: uint_digits d
  | Decimal.D2 d => 50%N :: uint_digits d
  | Decimal.D3 d => 51%N :: uint_digits d
  | Decimal.D4 d => 52%N :: uint_digits d
  | Decimal.D5 d => 53%N :: uint_digits d
  | Decimal.D6 d => 54%N :: uint_digits d
  | Decimal.D7 d => 55%N :: uint_digits d
  | Decimal.D8 d => 56%N :: uint_digits d
  | Decimal.D9 d => 57%N :: uint_digits d
  end.

Definition decimal (z : Z) : jsstring :=
  match z with
  | Z0 => js "0"
  | Zpos p => uint_digits (Pos.to_uint p)
  | Zneg p => js "-" ++ uint_digits (Pos.to_uint p)
  end.

(** [arr[i]] for a Number [i]: the element when [i] is an integer in range,
    [undefined] otherwise. *)
Definition array_get {A} (arr : list A) (i : spec_float) : option A :=
  match to_integer i with
  | Some z => if 0 <=? z then arr !! Z.to_nat z else None
  | None => None
  end.

(** ** Documents and collections *)

(** [ILink]: a document of the [Link] collection. *)
Module ILink.
Record t : Type := mk {
  linkId : jsstring;
  userKey : jsstring;
  title : jsstring;
  description : jsstring;
  isActive : bool;
  createdAt : Z
}.

(** What a query with [.select("-userKey -_id -__v")] hands back: the
    document without its key. *)
Record selected : Type := mkSelected {
  s_linkId : jsstring;
  s_title : jsstring;
  s_description : jsstring;
  s_isActive : bool;
  s_createdAt : Z
}.

Definition select (l : t) : selected :=
  mkSelected (linkId l) (title l) (description l) (isActive l) (createdAt l).

Definition set_isActive (b : bool) (l : t) : t :=
  mk (linkId l) (userKey l) (title l) (description l) b (createdAt l).
End ILink.

(** [IMessage]: a document of the [Message] collection. *)
Module IMessage.
Record t : Type := mk {
  messageId : jsstring;
  linkId : jsstring;
  content : jsstring;
  anonymousSenderId : jsstring;
  timestamp : Z
}.
End IMessage.

#[global] Instance ILink_eq_dec : EqDecision ILink.t.
Proof. solve_decision. Defined.
#[global] Instance ILink_selected_eq_dec : EqDecision ILink.selected.
Proof. solve_decision. Defined.
#[global] Instance IMessage_eq_dec : EqDecision IMessage.t.
Proof. solve_decision. Defined.

(** The database: both collections in insertion order. *)
Record Store : Type := mkStore {
  Link : list ILink.t;
  Message : list IMessage.t
}.

(** A [save] either succeeds or throws (validation error, duplicate key). *)
Inductive saved : Type :=
  | Saved (s : Store)
  | Throws.

(** *** Schema validation *)

(** [required: true] on a String path rejects the empty string. *)
Definition required (v : jsstring) : bool :=
  match v with
  | [] => false
  | _ :: _ => true
  end.

(** [linkSchema]: [linkId] and [userKey] are required. *)
Definition linkSchema (l : ILink.t) : bool :=
  required (ILink.linkId l) && required (ILink.userKey l).

(** [messageSchema]: four required paths, [content] of at most 1000 units. *)
Definition messageSchema (m : IMessage.t) : bool :=
  required (IMessage.messageId m) && required (IMessage.linkId m)
  && required (IMessage.content m) && (length (IMessage.content m) <=? 1000)%nat
  && required (IMessage.anonymousSenderId m).

(** *** Queries *)

(** [Link.findOne({ linkId })]: the first match, with its position standing
    for the document's [_id]. *)
Definition Link_findOne (linkId : jsstring) (s : Store)
    : option (nat * ILink.t) :=
  list_find (λ l, ILink.linkId l = linkId) (Link s).

(** [Message.findOne({ messageId })] *)
Definition Message_findOne (messageId : jsstring) (s : Store)
    : option (nat * IMessage.t) :=
  list_find (λ m, IMessage.messageId m = messageId) (Message s).

(** [doc.save()] of a new link: validation, then the insert, which the
    unique index on [linkId] refuses for an identifier already stored. *)
Definition Link_save (l : ILink.t) (s : Store) : saved :=
  if linkSchema l
     && bool_decide (ILink.linkId l ∉ ILink.linkId <$> Link s)
  then Saved (mkStore (Link s ++ [l]) (Message s))
  else Throws.

(** [doc.save()] of a link that was read from position [i] and modified:
    validation runs again, then the document is written back in place. *)
Definition Link_update (i : nat) (l : ILink.t) (s : Store) : saved :=
  if linkSchema l then Saved (mkStore (<[i := l]> (Link s)) (Message s))
  else Throws.

(** [doc.save()] of a new message; [messageId] carries a unique index. *)
Definition Message_save (m : IMessage.t) (s : Store) : saved :=
  if messageSchema m
     && bool_decide (IMessage.messageId m ∉ IMessage.messageId <$> Message s)
  then Saved (mkStore (Link s) (Message s ++ [m]))
  else Throws.

(** [Message.deleteOne({ messageId })]: removes the first match, if any. *)
Definition Message_deleteOne (messageId : jsstring) (s : Store) : Store :=
  match Message_findOne messageId s with
  | Some (i, _) => mkStore (Link s) (delete i (Message s))
  | None => s
  end.

(** [.sort({ field: -1 })]: descending by a date field.  Documents with
    equal dates keep their insertion order here; the database leaves their
    order open, and no statement below depends on it. *)
Fixpoint insert_desc {A} (key : A → Z) (x : A) (l : list A) : list A :=
  match l with
  | [] => [x]
  | y :: l' =>
      if key y <=? key x then x :: l else y :: insert_desc key x l'
  end.

Definition sort_desc {A} (key : A → Z) (l : list A) : list A :=
  foldr (insert_desc key) [] l.

(** [Message.find({ linkId }).sort({ timestamp: -1 })] *)
Definition Message_find (linkId : jsstring) (s : Store) : list IMessage.t :=
  sort_desc IMessage.timestamp
    (filter (λ m, IMessage.linkId m = linkId) (Message s)).

(** [Message.countDocuments({ linkId })] *)
Definition Message_countDocuments (linkId : jsstring) (s : Store) : nat :=
  length (filter (λ m, IMessage.linkId m = linkId) (Message s)).

(** [Link.find({ userKey }).sort({ createdAt: -1 }).select("-userKey ...")] *)
Definition Link_find (userKey : jsstring) (s : Store) : list ILink.selected :=
  ILink.select <$>
    sort_desc ILink.createdAt
      (filter (λ l, ILink.userKey l = userKey) (Link s)).

(** ** Responses *)

#[local] Set Warnings "-register-all".

Inductive json : Type :=
  | JBool (b : bool)
  | JNumber (n : Z)
  | JString (s : jsstring)
  | JDate (t : Z)
  | JArray (items : list json)
  | JObject (fields : list (jsstring * json)).

Inductive payload : Type :=
  | Json (j : json)
  | Text (s : jsstring).

Record Response : Type := mkResponse {
  status : Z;
  body : payload
}.

(** [res.status(c).json({ error: msg })] *)
Definition error (c : Z) (msg : string) : Response :=
  mkResponse c (Json (JObject [(js "error", JString (js msg))])).

Definition linkInfo (linkId title description : jsstring) (isActive : bool)
    (createdAt : Z) : json :=
  JObject [(js "linkId", JString linkId);
           (js "title", JString title);
           (js "description", JString description);
           (js "isActive", JBool isActive);
           (js "createdAt", JDate createdAt)].

(** A message as sent back by the retrieval route ([.select("-_id -__v")]
    keeps the five paths of the schema). *)
Definition json_of_message (m : IMessage.t) : json :=
  JObject [(js "messageId", JString (IMessage.messageId m));
           (js "linkId", JString (IMessage.linkId m));
           (js "content", JString (IMessage.content m));
           (js "anonymousSenderId", JString (IMessage.anonymousSenderId m));
           (js "timestamp", JDate (IMessage.timestamp m))].



(** ** Request bodies *)

(** A JSON value as [express.json()] hands it to a handler.  The type
    annotations of the source promise strings, but nothing checks them:
    numbers, booleans, arrays and objects arrive as they were sent.  The
    body itself is an object or an array (the parser refuses any other
    text before a handler runs), or [undefined] when the request has no
    JSON body. *)
Inductive value : Type :=
  | VNull
  | VBool (b : bool)
  | VNumber (x : spec_float)
  | VString (s : jsstring)
  | VArray (items : list value)
  | VObject (fields : list (jsstring * value)).

(** An own property of a parsed object; of two fields with one name the
    parser keeps the later. *)
Definition field (name : string) (fields : list (jsstring * value))
    : option value :=
  (λ x, x.2.2) <$> list_find (λ kv, kv.1 = js name) (reverse fields).

(** [const { name } = req.body] on a body that was parsed.  The names the
    handlers read ([key], [title], [description], [content]) are on no
    prototype, so anything but an object gives [undefined]. *)
Definition body_field (name : string) (body : value) : option value :=
  match body with
  | VObject fields => field name fields
  | _ => None
  end.

(** Truthiness of a value that may be [undefined]. *)
Definition ToBoolean (v : option value) : bool :=
  match v with
  | None | Some VNull => false
  | Some (VBool b) => b
  | Some (VNumber (S754_zero _)) | Some (VNumber S754_nan) => false
  | Some (VNumber _) => true
  | Some (VString s) => truthy (Some s)
  | Some (VArray _) | Some (VObject _) => true
  end.

(** [v || d] where [d] is a string literal. *)
Definition or_string (v : option value) (d : jsstring) : value :=
  match v with
  | Some x => if ToBoolean v then x else VString d
  | None => VString d
  end.

(** ** The surroundings of a request *)

Record Env : Type := mkEnv {
  now : Z;                        (* [Date.now()] *)
  uuidv4 : jsstring;              (* the value [uuidv4()] returns *)
  Math_random : nat → spec_float; (* outcome of the n-th [Math.random()] *)
  rateLimited : bool              (* the rate limiter cuts the request *)
}.

(** The contract of [Math.random]: a Number with positive sign, at least 0
    and below 1. *)
Definition is_random (x : spec_float) : bool :=
  match x with
  | S754_zero false => true
  | S754_finite false m e =>
      bounded prec emax m e && (e <? 0) && (Z.pos m <? 2 ^ (- e))
  | _ => false
  end.

(** The shape of a version-4 identifier: 36 units, hyphens at 8, 13, 18
    and 23, lower-case hexadecimal digits elsewhere. *)
Definition is_hex (c : N) : bool :=
  ((48 <=? c) && (c <=? 57) || (97 <=? c) && (c <=? 102))%N.

Definition is_uuid (u : jsstring) : bool :=
  (length u =? 36)%nat
  && forallb (λ ic : nat * N,
       if bool_decide (ic.1 ∈ [8; 13; 18; 23]%nat) then (ic.2 =? 45)%N
       else is_hex ic.2) (imap pair u).

(** ** The handlers *)

Definition validateKey (providedKey storedKey : jsstring) : bool :=
  bool_decide (providedKey = storedKey).

Definition adjectives : list jsstring :=
  [js "Anonymous"; js "Secret"; js "Hidden"; js "Mystery"; js "Shadow"].

Definition animals : list jsstring :=
  [js "Fox"; js "Owl"; js "Cat"; js "Wolf"; js "Bear"; js "Eagle"; js "Raven"].

(** ** Sample data

    The example of the specification: a link [a1b2c3d4] created with the key
    [secret123], and one message sent to it. *)

Definition sample_link : ILink.t :=
  ILink.mk (js "a1b2c3d4") (js "secret123") (js "Anonymous Messages")
           (js "Send me anonymous messages") true 1000.

Definition sample_message : IMessage.t :=
  IMessage.mk (js "0f1e2d3c-4b5a-4978-8695-a4b3c2d1e0f9") (js "a1b2c3d4")
              (js "hello") (js "SecretFox42") 2000.

Definition sample_store : Store := mkStore [sample_link] [sample_message].


(** Draws: the largest Number below one, one half, and the smallest
    positive Number. *)
Definition sample_random (i : nat) : spec_float :=
  match i with
  | O => S754_finite false 9007199254740991 (-53)
  | S O => S754_finite false 4503599627370496 (-53)
  | _ => S754_finite false 1 (-1074)
  end.

Definition sample_env : Env :=
  mkEnv 3000 (js "9e8d7c6b-5a49-4382-b716-05f4e3d2c1b0") sample_random false.


(** A content of 1001 units that is 1000 units long once trimmed. *)
Definition padded_content : jsstring := replicate 1000 97%N ++ [32%N].

(** A printer for the Numbers [Number_toString] leaves open (used to run the
    handlers on the sample data, where it is never called). *)
Definition no_digits (x : spec_float) : jsstring := [].

(** A comparison for the values [less_than_6] leaves open (likewise). *)
Definition no_compare (x : value) : option bool := None.

(** A busier store: a second link with another key, and messages of both
    links, stored in an order that is not the order of their dates. *)
Definition second_link : ILink.t :=
  ILink.mk (js "b2c3d4e5") (js "other-key") (js "Questions") (js "Ask away")
           true 1500.

Definition later_message : IMessage.t :=
  IMessage.mk (js "1a2b3c4d-5e6f-4a7b-8c9d-0e1f2a3b4c5d") (js "a1b2c3d4")
              (js "third") (js "ShadowOwl7") 2600.

Definition other_message : IMessage.t :=
  IMessage.mk (js "2b3c4d5e-6f7a-4b8c-9d0e-1f2a3b4c5d6e") (js "b2c3d4e5")
              (js "not yours") (js "HiddenCat310") 2100.

Definition middle_message : IMessage.t :=
  IMessage.mk (js "3c4d5e6f-7a8b-4c9d-8e1f-2a3b4c5d6e7f") (js "a1b2c3d4")
              (js "second") (js "MysteryWolf88") 2300.

Definition busy_store : Store :=
  mkStore [sample_link; second_link]
          [sample_message; later_message; other_message; middle_message].

(** Bodies: the example of the specification, a key that is too short, a
    key sent as the number 7, a message. *)
Definition sample_create_body : value :=
  VObject [(js "key", VString (js "secret123"))].



Definition sample_send_body : value :=
  VObject [(js "content", VString (js "hello"))].

Section Service.

(** [Number::toString] prints an integer below 2^53 by its decimal digits
    and has names for NaN and the infinities.  For the remaining Numbers
    (fractions and larger magnitudes) the standard asks for the shortest
    digit string that reads back as the same Number; that part is left
    open here, and everything below holds whatever it prints. *)
Variable Number_toString_other : spec_float → jsstring.

Definition Number_toString (x : spec_float) : jsstring :=
  match x with
  | S754_nan => js "NaN"
  | S754_infinity false => js "Infinity"
  | S754_infinity true => js "-Infinity"
  | _ =>
      match to_integer x with
      | Some z => if Z.abs z <? 2 ^ 53 then decimal z
                  else Number_toString_other x
      | None => Number_toString_other x
      end
  end.

(** [generateAnonymousSenderId]; the three draws are taken in the order of
    the source: the number, the adjective, the animal. *)
Definition generateAnonymousSenderId (random : nat → spec_float) : jsstring :=
  let numbers :=
    Number_add (Math_floor (Number_mul (random 0%nat) (Number_of_Z 999)))
               (Number_of_Z 1) in
  let adjective :=
    array_get adjectives
      (Math_floor (Number_mul (random 1%nat)
                              (Number_of_Z (Z.of_nat (length adjectives))))) in
  let animal :=
    array_get animals
      (Math_floor (Number_mul (random 2%nat)
                              (Number_of_Z (Z.of_nat (length animals))))) in
  template_part adjective ++ template_part animal ++ Number_toString numbers.

(** *** 1. Create link: [POST /api/links/create] *)

(** The handler on a body whose [key], [title] and [description] are strings
    or absent, as its type annotation has it ([None] is a field the body
    does not have).  [postLinksCreate] below is the handler on any body. *)
Definition createLink (env : Env) (s : Store)
    (key title description : option jsstring) : Response * Store :=
  match key with
  | Some (c :: k') =>
      let key := c :: k' in
      if (length key <? 6)%nat then
        (error 400 "Key is required and must be at least 6 characters long", s)
      else
        let linkId := substring0 8 (uuidv4 env) in
        let newLink :=
          ILink.mk linkId key
            (or_default title (js "Anonymous Messages"))
            (or_default description (js "Send me anonymous messages"))
            true (now env) in
        match Link_save newLink s with
        | Saved s' =>
            (mkResponse 201 (Json (JObject
               [(js "success", JBool true);
                (js "linkId", JString linkId);
                (js "shareUrl", JString (js "/share/" ++ linkId));
                (js "title", JString (ILink.title newLink));
                (js "description", JString (ILink.description newLink));
                (js "createdAt", JDate (ILink.createdAt newLink))])), s')
        | Throws => (error 500 "Internal server error", s)
        end
  | _ => (error 400 "Key is required and must be at least 6 characters long", s)
  end.

(** [x < 6] for a value [x] that is not [undefined]: [null] and booleans
    count as 0 or 1, a Number is compared as it is.  A string, an array or
    an object is first turned into a Number by parsing what it prints
    (which can throw): that part is left open, [None] standing for a
    throw, and everything below holds whatever it answers. *)
Variable less_than_6_other : value → option bool.

Definition less_than_6 (x : value) : option bool :=
  match x with
  | VNull | VBool _ => Some true
  | VNumber x => Some (SFltb x (Number_of_Z 6))
  | _ => less_than_6_other x
  end.

(** [key.length < 6] for a truthy [key]: strings and arrays have a length,
    numbers and booleans have none ([undefined < 6] is false), an object
    has the [length] it was sent with, if any.  [None] is a throw. *)
Definition short_key (key : value) : option bool :=
  match key with
  | VNull => None
  | VBool _ | VNumber _ => Some false
  | VString s => Some (length s <? 6)%nat
  | VArray items => Some (length items <? 6)%nat
  | VObject fields =>
      match field "length" fields with
      | None => Some false
      | Some x => less_than_6 x
      end
  end.

(** What a String path of a schema makes of a truthy value it is given:
    a string is kept, a number or boolean is printed, an object that
    carries a string [_id] stands for that string; anything else is a cast
    error ([None]), which [save] reports. *)
Definition castString (v : value) : option jsstring :=
  match v with
  | VString s => Some s
  | VNumber x => Some (Number_toString x)
  | VBool b => Some (if b then js "true" else js "false")
  | VObject fields =>
      match field "_id" fields with
      | Some (VString (c :: s)) => Some (c :: s)
      | _ => None
      end
  | VNull | VArray _ => None
  end.

(** The route on any body.  Without a body ([req.body] is [undefined];
    [null] would do the same) the destructuring throws, and the [catch]
    answers 500. *)
Definition postLinksCreate (env : Env) (s : Store) (body : option value)
    : Response * Store :=
  match body with
  | None | Some VNull => (error 500 "Internal server error", s)
  | Some body =>
      let key := body_field "key" body in
      let title := body_field "title" body in
      let description := body_field "description" body in
      match key with
      | Some k =>
          if negb (ToBoolean key) then
            (error 400
               "Key is required and must be at least 6 characters long", s)
          else
            match short_key k with
            | None => (error 500 "Internal server error", s)
            | Some true =>
                (error 400
                   "Key is required and must be at least 6 characters long",
                 s)
            | Some false =>
                let linkId := substring0 8 (uuidv4 env) in
                match castString k,
                      castString (or_string title (js "Anonymous Messages")),
                      castString (or_string description
                                    (js "Send me anonymous messages")) with
                | Some userKey, Some title, Some description =>
                    let newLink :=
                      ILink.mk linkId userKey title description true
                               (now env) in
                    match Link_save newLink s with
                    | Saved s' =>
                        (mkResponse 201 (Json (JObject
                           [(js "success", JBool true);
                            (js "linkId", JString linkId);
                            (js "shareUrl", JString (js "/share/" ++ linkId));
                            (js "title", JString (ILink.title newLink));
                            (js "description",
                             JString (ILink.description newLink));
                            (js "createdAt",
                             JDate (ILink.createdAt newLink))])), s')
                    | Throws => (error 500 "Internal server error", s)
                    end
                | _, _, _ => (error 500 "Internal server error", s)
                end
            end
      | None =>
          (error 400
             "Key is required and must be at least 6 characters long", s)
      end
  end.

(** *** 2. Send message: [POST /api/messages/:linkId/send] *)

(** The handler on a body whose [content] is a string or absent;
    [postMessagesSend] below is the handler on any body. *)

Definition sendMessage (env : Env) (s : Store)
    (linkId : jsstring) (content : option jsstring) : Response * Store :=
  match content with
  | Some (c :: content') =>
      let content := c :: content' in
      if (length (trim content) =? 0)%nat then
        (error 400 "Message content is required", s)
      else if (1000 <? length content)%nat then
        (error 400 "Message too long (max 1000 characters)", s)
      else
        match Link_findOne linkId s with
        | None => (error 404 "Link not found", s)
        | Some (_, link) =>
            if negb (ILink.isActive link) then
              (error 403 "This link is no longer accepting messages", s)
            else
              let messageId := uuidv4 env in
              let anonymousSenderId :=
                generateAnonymousSenderId (Math_random env) in
              let newMessage :=
                IMessage.mk messageId linkId (trim content) anonymousSenderId
                            (now env) in
              match Message_save newMessage s with
              | Saved s' =>
                  (mkResponse 201 (Json (JObject
                     [(js "success", JBool true);
                      (js "messageId", JString messageId);
                      (js "anonymousSenderId", JString anonymousSenderId);
                      (js "timestamp", JDate (IMessage.timestamp newMessage));
                      (js "message", JString (js "Message sent successfully!"))])),
                   s')
              | Throws => (error 500 "Internal server error", s)
              end
        end
  | _ => (error 400 "Message content is required", s)
  end.

(** The route on any body.  Without a body the destructuring of
    [req.body] throws.  A content that is not a string is either falsy
    (the first test answers 400) or has no [trim] to call, which throws. *)
Definition postMessagesSend (env : Env) (s : Store) (linkId : jsstring)
    (body : option value) : Response * Store :=
  match body with
  | None | Some VNull => (error 500 "Internal server error", s)
  | Some body =>
      match body_field "content" body with
      | None => sendMessage env s linkId None
      | Some (VString content) => sendMessage env s linkId (Some content)
      | Some content =>
          if ToBoolean (Some content)
          then (error 500 "Internal server error", s)
          else (error 400 "Message content is required", s)
      end
  end.

(** *** 3. Get messages: [GET /api/messages/:linkId] *)

Definition getMessages (s : Store) (linkId : jsstring)
    (key : option jsstring) : Response * Store :=
  match key with
  | Some (c :: k') =>
      let key := c :: k' in
      match Link_findOne linkId s with
      | None => (error 404 "Link not found", s)
      | Some (_, link) =>
          if negb (validateKey key (ILink.userKey link)) then
            (error 401 "Invalid key", s)
          else
            let messages := Message_find linkId s in
            (mkResponse 200 (Json (JObject
               [(js "success", JBool true);
                (js "linkInfo",
                 linkInfo (ILink.linkId link) (ILink.title link)
                          (ILink.description link) (ILink.isActive link)
                          (ILink.createdAt link));
                (js "messages", JArray (json_of_message <$> messages));
                (js "totalMessages", JNumber (Z.of_nat (length messages)))])),
             s)
      end
  | _ => (error 401 "Key is required", s)
  end.

(** *** Get all links of a key: [GET /api/links] *)

Definition linkWithCount (s : Store) (link : ILink.selected) : json :=
  let messageCount := Message_countDocuments (ILink.s_linkId link) s in
  JObject [(js "linkId", JString (ILink.s_linkId link));
           (js "title", JString (ILink.s_title link));
           (js "description", JString (ILink.s_description link));
           (js "isActive", JBool (ILink.s_isActive link));
           (js "createdAt", JDate (ILink.s_createdAt link));
           (js "messageCount", JNumber (Z.of_nat messageCount));
           (js "shareUrl", JString (js "/share/" ++ ILink.s_linkId link))].

Definition getLinks (s : Store) (key : option jsstring) : Response * Store :=
  match key with
  | Some (c :: k') =>
      let key := c :: k' in
      let links := Link_find key s in
      let linksWithCounts := linkWithCount s <$> links in
      (mkResponse 200 (Json (JObject
         [(js "success", JBool true);
          (js "links", JArray linksWithCounts);
          (js "totalLinks", JNumber (Z.of_nat (length linksWithCounts)))])), s)
  | _ => (error 401 "Key is required", s)
  end.

(** *** 4. Delete message: [DELETE /api/messages/:messageId] *)

Definition deleteMessage (s : Store) (messageId : jsstring)
    (key : option jsstring) : Response * Store :=
  match key with
  | Some (c :: k') =>
      let key := c :: k' in
      match Message_findOne messageId s with
      | None => (error 404 "Message not found", s)
      | Some (_, message) =>
          match Link_findOne (IMessage.linkId message) s with
          | None => (error 404 "Associated link not found", s)
          | Some (_, link) =>
              if negb (validateKey key (ILink.userKey link)) then
                (error 401 "Invalid key", s)
              else
                (mkResponse 200 (Json (JObject
                   [(js "success", JBool true);
                    (js "message",
                     JString (js "Message deleted successfully"))])),
                 Message_deleteOne messageId s)
          end
      end
  | _ => (error 401 "Key is required", s)
  end.

(** *** 5. Toggle visibility: [POST /api/links/:linkId/toggle-visibility] *)

Definition toggleVisibility (s : Store) (linkId : jsstring)
    (key : option jsstring) : Response * Store :=
  match key with
  | Some (c :: k') =>
      let key := c :: k' in
      match Link_findOne linkId s with
      | None => (error 404 "Link not found", s)
      | Some (i, link) =>
          if negb (validateKey key (ILink.userKey link)) then
            (error 401 "Invalid key", s)
          else
            let link := ILink.set_isActive (negb (ILink.isActive link)) link in
            match Link_update i link s with
            | Saved s' =>
                (mkResponse 200 (Json (JObject
                   [(js "success", JBool true);
                    (js "linkId", JString (ILink.linkId link));
                    (js "isActive", JBool (ILink.isActive link));
                    (js "message",
                     JString (js "Link "
                              ++ (if ILink.isActive link then js "activated"
                                  else js "deactivated")
                              ++ js " successfully"))])), s')
            | Throws => (error 500 "Internal server error", s)
            end
      end
  | _ => (error 401 "Key is required", s)
  end.

(** *** Link info: [GET /api/links/:linkId/info] *)

Definition getLinkInfo (s : Store) (linkId : jsstring) : Response * Store :=
  match prod_map id ILink.select <$> Link_findOne linkId s with
  | None => (error 404 "Link not found", s)
  | Some (_, link) =>
      (mkResponse 200 (Json (JObject
         [(js "success", JBool true);
          (js "linkInfo",
           linkInfo (ILink.s_linkId link) (ILink.s_title link)
                    (ILink.s_description link) (ILink.s_isActive link)
                    (ILink.s_createdAt link))])), s)
  end.

(** *** The application: routes and rate limiters *)

Inductive Request : Type :=
  | PostLinksCreate (body : option value)
  | PostMessagesSend (linkId : jsstring) (body : option value)
  | GetMessages (linkId : jsstring) (key : option jsstring)
  | GetLinks (key : option jsstring)
  | DeleteMessage (messageId : jsstring) (key : option jsstring)
  | PostToggleVisibility (linkId : jsstring) (key : option jsstring)
  | GetLinkInfo (linkId : jsstring)
  | GetRoot.

(** A request cut by [linkLimit] or [messageLimit] gets the limiter's
    message and never reaches the handler. *)
Definition limited (msg : string) (r : Response * Store) (env : Env)
    (s : Store) : Response * Store :=
  if rateLimited env then (error 429 msg, s) else r.

Definition app (env : Env) (s : Store) (req : Request) : Response * Store :=
  match req with
  | PostLinksCreate body =>
      limited "Too many links created, try again later."
        (postLinksCreate env s body) env s
  | PostMessagesSend linkId body =>
      limited "Too many messages sent, try again later."
        (postMessagesSend env s linkId body) env s
  | GetMessages linkId key => getMessages s linkId key
  | GetLinks key => getLinks s key
  | DeleteMessage messageId key => deleteMessage s messageId key
  | PostToggleVisibility linkId key => toggleVisibility s linkId key
  | GetLinkInfo linkId => getLinkInfo s linkId
  | GetRoot =>
      (mkResponse 200 (Text (js
         "Welcome to the Anonymous Messages API! Use /api/links/create to create a link.")),
       s)
  end.

(** ** Predicates used in the statements *)

(** The stores the service builds: every document passed the validation of
    its schema, and the two unique indexes hold. *)
Definition store_wf (s : Store) : Prop :=
  Forall (λ l, linkSchema l = true) (Link s)
  ∧ NoDup (ILink.linkId <$> Link s)
  ∧ Forall (λ m, messageSchema m = true) (Message s)
  ∧ NoDup (IMessage.messageId <$> Message s).

#[global] Instance store_wf_dec s : Decision (store_wf s).
Proof. unfold store_wf. apply _. Defined.

(** What [uuidv4] promises for message identifiers: the shape of an
    identifier, and a value no stored message carries. *)
Definition fresh_uuid (env : Env) (s : Store) : Prop :=
  is_uuid (uuidv4 env) = true
  ∧ uuidv4 env ∉ IMessage.messageId <$> Message s.




(** Order of a list sorted by [key] descending: the date of an element is
    at least that of every later one. *)
Definition newest_first {A} (key : A → Z) (x y : A) : Prop := key y ≤ key x.

(** Invariant of the right shifts of [binary_round_aux]: after shifting [M]
    by [k] places the record holds the quotient, and its round bit is set
    only when the remainder is at least half a unit. *)
Definition shr_inv (M k : Z) (r : shr_record) : Prop :=
  0 ≤ shr_m r ∧
  ∃ rem, M = shr_m r * 2 ^ k + rem ∧ 0 ≤ rem < 2 ^ k ∧
         (shr_r r = true → 2 ^ k ≤ 2 * rem).

(** ** Reading a response, running a session *)

(** The value of the first field of an object with the given name. *)
Definition json_get (name : string) (j : json) : option json :=
  match j with
  | JObject fields => (λ x, x.2.2) <$> list_find (λ kv, kv.1 = js name) fields
  | _ => None
  end.

Definition response_get (name : string) (r : Response) : option json :=
  match body r with
  | Json j => json_get name j
  | Text _ => None
  end.

(** The routes registered with [app.get]. *)
Definition is_get (req : Request) : bool :=
  match req with
  | GetMessages _ _ | GetLinks _ | GetLinkInfo _ | GetRoot => true
  | _ => false
  end.

(** The store after a sequence of requests, each with its environment. *)
Fixpoint run (s : Store) (session : list (Env * Request)) : Store :=
  match session with
  | [] => s
  | (env, req) :: session' => run (app env s req).2 session'
  end.

(** A draw that lands in slot [q] of [n]: the Number nearest to
    [(2q+1) / 2n], the middle of the slot. *)
Definition draw_for (q n : Z) : spec_float :=
  SFdiv prec emax (Number_of_Z (2 * q + 1)) (Number_of_Z (2 * n)).

#[global] Instance spec_float_eq_dec : EqDecision spec_float.
Proof. solve_decision. Defined.


(** * Properties *)

(** ** Numbers: a draw below one scaled by [n] floors to [0 .. n-1] *)

Lemma digits2_pos_size p : digits2_pos p = Pos.size p.
Proof. induction p; simpl; congruence. Qed.

Lemma digits2_bounds p :
  2 ^ (Z.pos (digits2_pos p) - 1) ≤ Z.pos p < 2 ^ Z.pos (digits2_pos p).
Proof.
  rewrite digits2_pos_size. split.
  - pose proof (Pos.size_le p) as H.
    apply Pos2Z.pos_le_pos in H. rewrite Pos2Z.inj_pow in H.
    replace (Z.pos (Pos.size p)) with (Z.succ (Z.pos (Pos.size p) - 1)) in H by lia.
    rewrite Z.pow_succ_r in H by lia. lia.
  - pose proof (Pos.size_gt p) as H.
    apply Pos2Z.pos_lt_pos in H. by rewrite Pos2Z.inj_pow in H.
Qed.

Lemma shr_1_inv M k r : 0 ≤ k → shr_inv M k r → shr_inv M (k + 1) (shr_1 r).
Proof.
  intros Hk (Hm & rem & HM & Hrem & Hr).
  assert (Hp : 2 ^ (k + 1) = 2 * 2 ^ k) by (rewrite Z.pow_add_r; lia).
  assert (0 < 2 ^ k) by (apply Z.pow_pos_nonneg; lia).
  destruct r as [m rb sb]; simpl in *.
  destruct m as [|[p|p|]|p]; unfold shr_inv; simpl; [| | | |lia].
  - split; [lia|]. exists rem. rewrite Hp. split; [lia|]. split; [lia|]. done.
  - split; [lia|]. exists (rem + 2 ^ k). rewrite Hp. lia.
  - split; [lia|]. exists rem. rewrite Hp. split; [lia|]. split; [lia|]. done.
  - split; [lia|]. exists (rem + 2 ^ k). rewrite Hp. lia.
Qed.

Lemma iter_pos_shr_inv p : ∀ M k r,
  0 ≤ k → shr_inv M k r → shr_inv M (k + Z.pos p) (SpecFloat.iter_pos shr_1 p r).
Proof.
  induction p as [p IH|p IH|]; intros M k r Hk Hr; simpl.
  - replace (k + Z.pos p~1) with (k + 1 + Z.pos p + Z.pos p) by lia.
    apply IH; [lia|]. apply IH; [lia|]. by apply shr_1_inv.
  - replace (k + Z.pos p~0) with (k + Z.pos p + Z.pos p) by lia.
    apply IH; [lia|]. by apply IH.
  - by apply shr_1_inv.
Qed.

Lemma shr_inv_init M : 0 ≤ M → shr_inv M 0 (Build_shr_record M false false).
Proof.
  intros HM. split; [done|]. exists 0. cbn [shr_m shr_r].
  rewrite Z.pow_0_r. split; [lia|]. split; [lia|done].
Qed.

(** Rounding a positive integer mantissa: the outcome is the mantissa
    shifted right by some [K], and rounding adds at most half a unit of the
    first shift. *)
Lemma binary_round_aux_shape (P : positive) (ex : Z) :
  let k1 := Z.max 0 (fexp prec emax (Zdigits2 (Z.pos P) + ex) - ex) in
  ∃ m K, 0 ≤ m ∧ 0 ≤ K ∧ 2 * m * 2 ^ K ≤ 2 * Z.pos P + 2 ^ k1 ∧
    binary_round_aux prec emax false (Z.pos P) ex loc_Exact =
      match m with
      | Z0 => S754_zero false
      | Z.pos m' =>
          if ex + K <=? emax - prec then S754_finite false m' (ex + K)
          else S754_infinity false
      | Z.neg _ => S754_nan
      end.
Proof.
  intros k1. unfold binary_round_aux.
  (* first shift *)
  assert (H1 : ∃ r1, shr_fexp prec emax (Z.pos P) ex loc_Exact = (r1, ex + k1)
                     ∧ shr_inv (Z.pos P) k1 r1).
  { unfold shr_fexp, shr. subst k1.
    destruct (fexp prec emax (Zdigits2 (Z.pos P) + ex) - ex) as [|n|n];
      simpl shr_record_of_loc.
    - exists (Build_shr_record (Z.pos P) false false). split.
      + f_equal. lia.
      + rewrite Z.max_id || rewrite Z.max_l by lia. by apply shr_inv_init.
    - exists (SpecFloat.iter_pos shr_1 n (Build_shr_record (Z.pos P) false false)).
      replace (Z.max 0 (Z.pos n)) with (0 + Z.pos n) by lia.
      split; [f_equal; lia|].
      apply iter_pos_shr_inv; [lia|]. by apply shr_inv_init.
    - exists (Build_shr_record (Z.pos P) false false). split.
      + f_equal. lia.
      + rewrite Z.max_id || rewrite Z.max_l by lia. by apply shr_inv_init. }
  destruct H1 as (r1 & -> & Hm1 & rem1 & HP & Hrem1 & Hr1).
  set (m1 := round_nearest_even (shr_m r1) (loc_of_shr_record r1)).
  assert (Hm1' : 0 ≤ m1 ∧ 2 * m1 * 2 ^ k1 ≤ 2 * Z.pos P + 2 ^ k1).
  { subst m1. destruct r1 as [q [] []]; simpl in *.
    - nia.
    - destruct (Z.even q); nia.
    - nia.
    - nia. }
  clearbody m1. destruct Hm1' as [Hm1a Hm1b].
  (* second shift *)
  assert (H2 : ∃ r2 k2, shr_fexp prec emax m1 (ex + k1) loc_Exact
                         = (r2, ex + k1 + k2)
                       ∧ 0 ≤ k2 ∧ shr_inv m1 k2 r2).
  { unfold shr_fexp, shr.
    destruct (fexp prec emax (Zdigits2 m1 + (ex + k1)) - (ex + k1)) as [|n|n];
      simpl shr_record_of_loc.
    - exists (Build_shr_record m1 false false), 0. split; [f_equal; lia|].
      split; [lia|]. by apply shr_inv_init.
    - exists (SpecFloat.iter_pos shr_1 n (Build_shr_record m1 false false)), (Z.pos n).
      split; [done|]. split; [lia|].
      replace (Z.pos n) with (0 + Z.pos n) at 1 by lia.
      apply iter_pos_shr_inv; [lia|]. by apply shr_inv_init.
    - exists (Build_shr_record m1 false false), 0. split; [f_equal; lia|].
      split; [lia|]. by apply shr_inv_init. }
  destruct H2 as (r2 & k2 & -> & Hk2 & Hm2 & rem2 & Hm1eq & Hrem2 & _).
  exists (shr_m r2), (k1 + k2).
  assert (0 ≤ k1) by (subst k1; lia).
  split; [done|]. split; [lia|]. split.
  - rewrite Z.pow_add_r by lia.
    assert (0 < 2 ^ k1) by (apply Z.pow_pos_nonneg; lia). nia.
  - replace (ex + (k1 + k2)) with (ex + k1 + k2) by lia.
    destruct (shr_m r2); done.
Qed.

Lemma Zdigits2_mul_le (m my : positive) :
  Z.pos (digits2_pos (m * my)) ≤ Z.pos (digits2_pos m) + Z.pos (digits2_pos my).
Proof.
  pose proof (digits2_bounds m) as [_ Hm].
  pose proof (digits2_bounds my) as [_ Hmy].
  pose proof (digits2_bounds (m * my)) as [HP _].
  rewrite Pos2Z.inj_mul in HP.
  assert (Hlt : 2 ^ (Z.pos (digits2_pos (m * my)) - 1)
                < 2 ^ (Z.pos (digits2_pos m) + Z.pos (digits2_pos my))).
  { rewrite Z.pow_add_r by lia. nia. }
  apply Z.pow_lt_mono_r_iff in Hlt; lia.
Qed.

(** A draw below one, multiplied by a Number [n·2^0] that has a full
    mantissa, stays below [n] after rounding: its floor is one of
    [0 .. n-1]. *)
Lemma floor_mul_random (x : spec_float) (my : positive) (ey n : Z) :
  is_random x = true →
  -53 ≤ ey ≤ 0 →
  Z.pos my = n * 2 ^ (- ey) →
  2 ^ 52 < Z.pos my < 2 ^ 53 →
  ∃ q, 0 ≤ q < n ∧
       Math_floor (Number_mul x (S754_finite false my ey)) = Number_of_Z q.
Proof.
  intros Hx Hey Hn Hmy.
  assert (Hn0 : 0 < n).
  { assert (0 < 2 ^ (- ey)) by (apply Z.pow_pos_nonneg; lia). nia. }
  destruct x as [[]|[]| |[] m e]; try discriminate; simpl in Hx.
  { exists 0. split; [lia|done]. }
  apply andb_prop in Hx as [Hx Hlt1]. apply andb_prop in Hx as [Hb He].
  apply Z.ltb_lt in Hlt1, He.
  unfold bounded in Hb. apply andb_prop in Hb as [Hcan _].
  unfold canonical_mantissa in Hcan. apply Z.eqb_eq in Hcan.
  unfold fexp, SpecFloat.emin, prec, emax in Hcan.
  (* the exact product and its rounding *)
  unfold Number_mul, SFmul. cbn [xorb].
  destruct (binary_round_aux_shape (m * my) (e + ey))
    as (m2 & K & Hm2 & HK & Hbound & ->).
  set (k1 := Z.max 0 (fexp prec emax (Zdigits2 (Z.pos (m * my)) + (e + ey))
                      - (e + ey))) in Hbound.
  assert (Hk1 : 0 ≤ k1 ≤ 53).
  { subst k1. unfold fexp, SpecFloat.emin, prec, emax. cbn [Zdigits2].
    pose proof (Zdigits2_mul_le m my).
    pose proof (digits2_bounds my) as [Hd _].
    assert (2 ^ (Z.pos (digits2_pos my) - 1) < 2 ^ 53) as Hd' by lia.
    apply Z.pow_lt_mono_r_iff in Hd'; lia. }
  assert (Hpow : 2 ^ k1 ≤ 2 ^ 53) by (apply Z.pow_le_mono_r; lia).
  rewrite Pos2Z.inj_mul in Hbound.
  assert (Hlt : m2 * 2 ^ K < Z.pos my * 2 ^ (- e)) by nia.
  destruct m2 as [|m2|m2]; [exists 0; split; [lia|done]| |lia].
  assert (H2K : 0 < 2 ^ K) by (apply Z.pow_pos_nonneg; lia).
  assert (HKe : K < 53 - e).
  { apply (Z.pow_lt_mono_r_iff 2); [lia|lia|].
    replace (53 - e) with (53 + - e) by lia. rewrite Z.pow_add_r by lia.
    assert (0 < 2 ^ (- e)) by (apply Z.pow_pos_nonneg; lia). nia. }
  replace (e + ey + K <=? emax - prec) with true
    by (symmetry; apply Z.leb_le; unfold emax, prec; lia).
  cbn [Math_floor]. unfold floor_value. cbn [cond_Zopp].
  exists (Z.shiftl (Z.pos m2) (e + ey + K)). split; [|done].
  split; [by apply Z.shiftl_nonneg|].
  rewrite Hn in Hlt.
  destruct (Z.le_gt_cases 0 (e + ey + K)) as [Hpos|Hneg].
  - rewrite Z.shiftl_mul_pow2 by done.
    assert (HKs : 2 ^ K = 2 ^ (e + ey + K) * 2 ^ (- ey) * 2 ^ (- e)).
    { rewrite <- !Z.pow_add_r by lia. f_equal. lia. }
    rewrite HKs in Hlt.
    assert (0 < 2 ^ (- ey) * 2 ^ (- e)) by (apply Z.mul_pos_pos; apply Z.pow_pos_nonneg; lia).
    nia.
  - rewrite Z.shiftl_div_pow2 by lia.
    apply Z.div_lt_upper_bound; [apply Z.pow_pos_nonneg; lia|].
    assert (HKs : 2 ^ (- ey) * 2 ^ (- e) = 2 ^ (- (e + ey + K)) * 2 ^ K).
    { rewrite <- !Z.pow_add_r by lia. f_equal. lia. }
    nia.
Qed.

Lemma numbers_table q :
  0 ≤ q < 999 →
  Number_toString (Number_add (Number_of_Z q) (Number_of_Z 1))
  = decimal (q + 1).
Proof.
  intros Hq.
  assert (H : forallb (λ q, bool_decide
              (Number_toString (Number_add (Number_of_Z q) (Number_of_Z 1))
               = decimal (q + 1))) (seqZ 0 999) = true) by (vm_compute; reflexivity).
  rewrite forallb_forall in H.
  specialize (H q). rewrite bool_decide_eq_true in H. apply H.
  apply list_elem_of_In, elem_of_seqZ. lia.
Qed.

Lemma array_get_table {A} (arr : list A) q :
  0 ≤ q < 8 → array_get arr (Number_of_Z q) = arr !! Z.to_nat q.
Proof.
  intros Hq.
  assert (q = 0 ∨ q = 1 ∨ q = 2 ∨ q = 3 ∨ q = 4 ∨ q = 5 ∨ q = 6 ∨ q = 7)
    as Hc by lia.
  destruct Hc as [->|[->|[->|[->|[->|[->|[->| ->]]]]]]]; reflexivity.
Qed.

Lemma draw_index {A} (arr : list A) (len : positive) (my : positive) (ey : Z) x :
  is_random x = true →
  length arr = Pos.to_nat len →
  Number_of_Z (Z.pos len) = S754_finite false my ey →
  -53 ≤ ey ≤ 0 → Z.pos my = Z.pos len * 2 ^ (- ey) →
  2 ^ 52 < Z.pos my < 2 ^ 53 → Z.pos len ≤ 8 →
  ∃ a, a ∈ arr ∧
    array_get arr (Math_floor (Number_mul x (Number_of_Z (Z.of_nat (length arr)))))
    = Some a.
Proof.
  intros Hx Hlen Hy Hey Hmy Hb H8.
  rewrite Hlen, positive_nat_Z, Hy.
  destruct (floor_mul_random x my ey (Z.pos len) Hx Hey Hmy Hb) as (q & Hq & ->).
  rewrite array_get_table by lia.
  destruct (lookup_lt_is_Some_2 arr (Z.to_nat q)) as [a Ha]; [lia|].
  exists a. split; [|done]. by eapply list_elem_of_lookup_2.
Qed.

(** ** Strings *)

Lemma required_true v : required v = true ↔ v ≠ [].
Proof. by destruct v. Qed.

Lemma trimStart_length s : (length (trimStart s) ≤ length s)%nat.
Proof.
  induction s as [|c s IH]; simpl; [done|].
  destruct (is_white_space c); simpl; lia.
Qed.

Lemma trim_length s : (length (trim s) ≤ length s)%nat.
Proof.
  unfold trim, trimEnd. rewrite length_reverse.
  etrans; [apply trimStart_length|]. rewrite length_reverse.
  apply trimStart_length.
Qed.

(** ** Sorting by a date, newest first *)

Section sort_desc.
Context {A : Type} (key : A → Z).

Lemma insert_desc_Permutation x l : insert_desc key x l ≡ₚ x :: l.
Proof.
  induction l as [|y l IH]; simpl; [done|].
  destruct (key y <=? key x); [done|].
  rewrite IH. apply Permutation_swap.
Qed.

Lemma sort_desc_Permutation l : sort_desc key l ≡ₚ l.
Proof.
  induction l as [|x l IH]; simpl; [done|].
  by rewrite insert_desc_Permutation, IH.
Qed.

Lemma sort_desc_length l : length (sort_desc key l) = length l.
Proof. by rewrite sort_desc_Permutation. Qed.

Lemma insert_desc_sorted x l :
  StronglySorted (newest_first key) l →
  StronglySorted (newest_first key) (insert_desc key x l).
Proof.
  induction 1 as [|y l Hl IH Hy]; simpl.
  - repeat constructor.
  - destruct (key y <=? key x) eqn:Hc.
    + apply Z.leb_le in Hc. constructor; [by constructor|].
      constructor; [done|].
      eapply Forall_impl; [exact Hy|]. unfold newest_first. intros; lia.
    + apply Z.leb_gt in Hc. constructor; [done|].
      rewrite insert_desc_Permutation. constructor; [|done].
      unfold newest_first. lia.
Qed.

Lemma sort_desc_sorted l : StronglySorted (newest_first key) (sort_desc key l).
Proof.
  induction l as [|x l IH]; simpl; [constructor|by apply insert_desc_sorted].
Qed.
End sort_desc.



(** ** The anonymous sender name *)

(** C9. For every outcome of the random source (three Numbers in [0, 1)),
    the generated sender name is an adjective of the fixed list, followed by
    an animal of the fixed list, followed by the decimal digits of an
    integer between 1 and 999. *)
Theorem generateAnonymousSenderId_pattern (random : nat → spec_float) :
  (∀ i, is_random (random i) = true) →
  ∃ adjective animal n,
    adjective ∈ adjectives ∧ animal ∈ animals ∧ 1 ≤ n ≤ 999 ∧
    generateAnonymousSenderId random = adjective ++ animal ++ decimal n.
Proof.
  intros Hr. unfold generateAnonymousSenderId.
  destruct (draw_index adjectives 5 5629499534213120 (-50) (random 1%nat))
    as (adjective & Hadj & ->); [done|done|done|lia|done|lia|lia|].
  destruct (draw_index animals 7 7881299347898368 (-50) (random 2%nat))
    as (animal & Hani & ->); [done|done|done|lia|done|lia|lia|].
  destruct (floor_mul_random (random 0%nat) 8787296929185792 (-43) 999)
    as (q & Hq & Hfl); [done|lia|done|lia|].
  change (Number_of_Z 999) with (S754_finite false 8787296929185792 (-43)).
  rewrite Hfl, numbers_table by done.
  exists adjective, animal, (q + 1).
  split; [done|]. split; [done|]. split; [lia|done].
Qed.

Lemma array_get_elem_of {A} (arr : list A) i a :
  array_get arr i = Some a → a ∈ arr.
Proof.
  unfold array_get. destruct (to_integer i) as [z|]; [|done].
  destruct (0 <=? z); [|done]. apply list_elem_of_lookup_2.
Qed.

(** Whatever the draws are, the name is not empty: it starts with an
    adjective or with [undefined]. *)
Lemma generateAnonymousSenderId_required random :
  required (generateAnonymousSenderId random) = true.
Proof.
  unfold generateAnonymousSenderId.
  match goal with
  | |- context [template_part (array_get adjectives ?i)] =>
      destruct (array_get adjectives i) as [a|] eqn:Ha
  end; [|done].
  apply array_get_elem_of in Ha. unfold adjectives in Ha.
  repeat (apply elem_of_cons in Ha as [->|Ha]; [done|]).
  by apply elem_of_nil in Ha.
Qed.

(** ** Owner-only routes without a key *)

(** C10. An owner-only request (message retrieval, message deletion,
    visibility toggle) whose key is absent (or empty, which the handlers do
    not tell apart) is answered 401 "Key is required" whatever the store
    holds, so also when the link or message it names does not exist, and
    the store is left as it was. *)
Theorem missing_key_unauthorized (s : Store) (id : jsstring)
    (key : option jsstring) :
  truthy key = false →
  getMessages s id key = (error 401 "Key is required", s)
  ∧ deleteMessage s id key = (error 401 "Key is required", s)
  ∧ toggleVisibility s id key = (error 401 "Key is required", s).
Proof. by destruct key as [[|c k]|]. Qed.

(** ** Link creation *)

Lemma is_uuid_length u : is_uuid u = true → length u = 36%nat.
Proof.
  unfold is_uuid. intros [H _]%andb_prop. by apply Nat.eqb_eq in H.
Qed.

Lemma is_uuid_required u : is_uuid u = true → required u = true.
Proof. intros H%is_uuid_length. by destruct u. Qed.



(** [title || d] (and likewise the description) on a field that is a string
    or absent, once cast by the schema. *)
Lemma castString_or_string (x : option jsstring) (d : jsstring) :
  castString (or_string (VString <$> x) d) = Some (or_default x d).
Proof. by destruct x as [[|c x]|]. Qed.

(** On a body whose three fields are strings or absent the route is
    [createLink]. *)
Lemma postLinksCreate_strings env s (fields : list (jsstring * value))
    (key title description : option jsstring) :
  field "key" fields = VString <$> key →
  field "title" fields = VString <$> title →
  field "description" fields = VString <$> description →
  postLinksCreate env s (Some (VObject fields))
  = createLink env s key title description.
Proof.
  intros Hk Ht Hd. unfold postLinksCreate, createLink, body_field.
  rewrite Hk, Ht, Hd, !castString_or_string.
  destruct key as [[|c k]|]; [done| |done].
  cbn [fmap option_fmap option_map ToBoolean truthy negb short_key castString].
  by destruct (length (c :: k) <? 6)%nat.
Qed.

(** On a body whose [content] is a string or absent the route is
    [sendMessage]. *)
Lemma postMessagesSend_strings env s linkId (fields : list (jsstring * value))
    (content : option jsstring) :
  field "content" fields = VString <$> content →
  postMessagesSend env s linkId (Some (VObject fields))
  = sendMessage env s linkId content.
Proof.
  intros Hc. unfold postMessagesSend, body_field. rewrite Hc.
  by destruct content.
Qed.


(** ** Message sending: validation of the content *)

(** C2 (as amended). The send-message operation accepts a content string
    (does not answer with a validation error) if and only if it is not
    empty after trimming and its length before trimming is at most 1000:
    so 1000 characters with a visible one among them are accepted, 1001
    characters are rejected, and all-whitespace content is rejected.  A
    rejected request leaves the store unchanged. *)
Theorem sendMessage_validation (env : Env) (s : Store) (linkId : jsstring)
    (content : option jsstring) :
  let r := sendMessage env s linkId content in
  (status r.1 ≠ 400 ↔
     ∃ c, content = Some c ∧ trim c ≠ [] ∧ (length c ≤ 1000)%nat)
  ∧ (∀ c, content = Some c → length c = 1000%nat → trim c ≠ [] →
          status r.1 ≠ 400)
  ∧ (∀ c, content = Some c → length c = 1001%nat → status r.1 = 400)
  ∧ (∀ c, content = Some c → trim c = [] → status r.1 = 400)
  ∧ (status r.1 = 400 → r.2 = s).
Proof.
  intros r.
  assert (Hiff : (status r.1 ≠ 400 ↔
            ∃ c, content = Some c ∧ trim c ≠ [] ∧ (length c ≤ 1000)%nat)
          ∧ (status r.1 = 400 → r.2 = s)).
  { subst r. destruct content as [[|c0 c']|].
    - split; [|done]. split; [done|]. by intros (c & [= <-] & ? & _).
    - unfold sendMessage.
      destruct (length (trim (c0 :: c')) =? 0)%nat eqn:Ht.
      { split; [|done]. split; [done|]. intros (c & [= <-] & Hc & _).
        apply Nat.eqb_eq in Ht. by destruct (trim (c0 :: c')). }
      destruct (1000 <? length (c0 :: c'))%nat eqn:Hl.
      { split; [|done]. split; [done|]. intros (c & [= <-] & _ & Hc).
        apply Nat.ltb_lt in Hl. lia. }
      assert (∃ c, Some (c0 :: c') = Some c ∧ trim c ≠ []
                   ∧ (length c ≤ 1000)%nat) as Hok.
      { exists (c0 :: c'). split; [done|]. apply Nat.ltb_ge in Hl.
        split; [|done]. intros Hnil. by rewrite Hnil in Ht. }
      destruct (Link_findOne linkId s) as [[i link]|]; [|by split].
      destruct (ILink.isActive link); cbn [negb]; [|by split].
      destruct (Message_save _ s); by split.
    - split; [|done]. split; [done|]. by intros (c & [=] & _). }
  destruct Hiff as [Hiff Hstore].
  assert (Hrej : ∀ c, content = Some c →
            trim c = [] ∨ (1000 < length c)%nat → status r.1 = 400).
  { intros c Hc Hbad. destruct (decide (status r.1 = 400)) as [|Hne]; [done|].
    apply Hiff in Hne as (c' & Hc' & Ht & Hl).
    rewrite Hc in Hc'. injection Hc' as <-. destruct Hbad; [done|lia]. }
  split; [exact Hiff|]. split; [|split; [|split; [|exact Hstore]]].
  - intros c Hc Hl Ht. apply Hiff. exists c. split; [done|]. split; [done|lia].
  - intros c Hc Hl. apply (Hrej c Hc). right. lia.
  - intros c Hc Ht. apply (Hrej c Hc). by left.
Qed.

(** ** Lookups in a well-formed store *)

Lemma Link_findOne_Some linkId s i link :
  Link_findOne linkId s = Some (i, link) →
  Link s !! i = Some link ∧ ILink.linkId link = linkId.
Proof. intros (? & ? & _)%list_find_Some. done. Qed.

Lemma Message_findOne_Some messageId s j message :
  Message_findOne messageId s = Some (j, message) →
  Message s !! j = Some message ∧ IMessage.messageId message = messageId.
Proof. intros (? & ? & _)%list_find_Some. done. Qed.

Lemma store_wf_link s i link :
  store_wf s → Link s !! i = Some link →
  ILink.linkId link ≠ [] ∧ ILink.userKey link ≠ [].
Proof.
  intros (Hl & _) Hi. rewrite Forall_lookup in Hl.
  pose proof (Hl i link Hi) as [H1 H2]%andb_prop.
  by rewrite <- !required_true.
Qed.

(** A key that opens a stored link is a key the handlers see as present. *)
Lemma validateKey_refl k : validateKey k k = true.
Proof. by apply bool_decide_eq_true_2. Qed.

(** ** Well-formed stores are the stores of the service *)

Lemma NoDup_snoc_fresh {A} (l : list A) x : NoDup l → x ∉ l → NoDup (l ++ [x]).
Proof.
  intros Hl Hx. apply NoDup_app. split; [done|]. split; [|apply NoDup_singleton].
  intros y Hy ->%list_elem_of_singleton. done.
Qed.

Lemma store_wf_createLink env s key title description :
  store_wf s → store_wf (createLink env s key title description).2.
Proof.
  intros Hwf. unfold createLink. destruct key as [[|c k]|]; [done| |done].
  destruct (length (c :: k) <? 6)%nat eqn:Hlen; [done|].
  unfold Link_save.
  destruct (linkSchema _) eqn:Hschema; [|done].
  destruct (bool_decide _) eqn:Hfresh; [|done].
  apply bool_decide_eq_true_1 in Hfresh.
  destruct Hwf as (Hl & Hids & Hm & Hmids). cbn [andb snd].
  split; [|split; [|done]]; cbn [Link].
  - apply Forall_app_2; [done|]. by apply Forall_singleton.
  - rewrite fmap_app. by apply NoDup_snoc_fresh.
Qed.

Lemma store_wf_sendMessage env s linkId content :
  store_wf s → store_wf (sendMessage env s linkId content).2.
Proof.
  intros Hwf. unfold sendMessage. destruct content as [[|c k]|]; [done| |done].
  destruct (length (trim (c :: k)) =? 0)%nat; [done|].
  destruct (1000 <? length (c :: k))%nat; [done|].
  destruct (Link_findOne linkId s) as [[i link]|]; [|done].
  destruct (negb (ILink.isActive link)); [done|].
  unfold Message_save.
  destruct (messageSchema _) eqn:Hschema; [|done].
  destruct (bool_decide _) eqn:Hfresh; [|done].
  apply bool_decide_eq_true_1 in Hfresh.
  destruct Hwf as (Hl & Hids & Hm & Hmids). cbn [andb snd].
  split; [done|]. split; [done|]. cbn [Message]. split.
  - apply Forall_app_2; [done|]. by apply Forall_singleton.
  - rewrite fmap_app. by apply NoDup_snoc_fresh.
Qed.

Lemma store_wf_deleteMessage s messageId key :
  store_wf s → store_wf (deleteMessage s messageId key).2.
Proof.
  intros Hwf. unfold deleteMessage. destruct key as [[|c k]|]; [done| |done].
  destruct (Message_findOne messageId s) as [[j message]|] eqn:Hfind; [|done].
  destruct (Link_findOne _ s) as [[i link]|]; [|done].
  destruct (negb (validateKey _ _)); [done|].
  unfold Message_deleteOne. rewrite Hfind.
  destruct Hwf as (Hl & Hids & Hm & Hmids).
  split; [done|]. split; [done|]. cbn [snd Message]. split.
  - by apply Forall_delete.
  - rewrite list_fmap_delete.
    apply (sublist_NoDup _ _ Hmids), sublist_delete.
Qed.

Lemma store_wf_toggleVisibility s linkId key :
  store_wf s → store_wf (toggleVisibility s linkId key).2.
Proof.
  intros Hwf. unfold toggleVisibility. destruct key as [[|c k]|]; [done| |done].
  destruct (Link_findOne linkId s) as [[i link]|] eqn:Hfind; [|done].
  destruct (negb (validateKey _ _)); [done|].
  unfold Link_update. destruct (linkSchema _) eqn:Hschema; [|done].
  apply Link_findOne_Some in Hfind as [Hi _].
  pose proof Hwf as (Hl & Hids & Hm & Hmids).
  split; [|split; [|done]]; cbn [snd Link].
  - by apply Forall_insert.
  - rewrite list_fmap_insert, list_insert_id; [done|].
    by rewrite list_lookup_fmap, Hi.
Qed.

Lemma store_wf_postLinksCreate env s body :
  store_wf s → store_wf (postLinksCreate env s body).2.
Proof.
  intros Hwf. unfold postLinksCreate, Link_save.
  repeat case_match; simplify_eq; cbn [snd]; try done.
  match goal with H : linkSchema _ && bool_decide _ = true |- _ =>
    apply andb_prop in H as [Hschema Hfresh%bool_decide_eq_true_1] end.
  destruct Hwf as (Hl & Hids & Hm & Hmids).
  split; [|split; [|done]]; cbn [Link].
  - apply Forall_app_2; [done|]. by apply Forall_singleton.
  - rewrite fmap_app. by apply NoDup_snoc_fresh.
Qed.

Lemma store_wf_postMessagesSend env s linkId body :
  store_wf s → store_wf (postMessagesSend env s linkId body).2.
Proof.
  intros Hwf. unfold postMessagesSend.
  repeat case_match; try done; by apply store_wf_sendMessage.
Qed.

(** The empty database is well formed and every request keeps the store
    well formed, whatever the environment hands to the handler. *)
Theorem store_wf_invariant :
  store_wf (mkStore [] [])
  ∧ ∀ env s req, store_wf s → store_wf (app env s req).2.
Proof.
  split.
  { repeat split; constructor. }
  intros env s req Hwf.
  destruct req as [body|linkId body|linkId key|key
                  |messageId key|linkId key|linkId|]; cbn [app].
  - unfold limited. destruct (rateLimited env); [done|].
    by apply store_wf_postLinksCreate.
  - unfold limited. destruct (rateLimited env); [done|].
    by apply store_wf_postMessagesSend.
  - unfold getMessages. destruct key as [[|c k]|]; [done| |done].
    destruct (Link_findOne linkId s) as [[i link]|]; [|done].
    by destruct (negb (validateKey _ _)).
  - unfold getLinks. by destruct key as [[|c k]|].
  - by apply store_wf_deleteMessage.
  - by apply store_wf_toggleVisibility.
  - unfold getLinkInfo. by destruct (Link_findOne linkId s) as [[i link]|].
  - done.
Qed.

(** ** Message sending *)

(** C3. A send-message request with valid content is answered not-found
    when no link carries the identifier, and forbidden when the link is
    inactive, the store being unchanged in both cases; otherwise (the
    identifier drawn for the message being fresh) the message with the
    trimmed content, that identifier and the generated sender name is
    appended to the messages, and the answer carries the identifier, the
    sender name and the timestamp. *)
Theorem sendMessage_spec (env : Env) (s : Store) (linkId c : jsstring) :
  trim c ≠ [] → (length c ≤ 1000)%nat →
  match Link_findOne linkId s with
  | None =>
      sendMessage env s linkId (Some c) = (error 404 "Link not found", s)
  | Some (_, link) =>
      if ILink.isActive link then
        store_wf s → fresh_uuid env s →
        let anonymousSenderId :=
          generateAnonymousSenderId (Math_random env) in
        let newMessage :=
          IMessage.mk (uuidv4 env) linkId (trim c) anonymousSenderId
                      (now env) in
        sendMessage env s linkId (Some c) =
          (mkResponse 201 (Json (JObject
             [(js "success", JBool true);
              (js "messageId", JString (uuidv4 env));
              (js "anonymousSenderId", JString anonymousSenderId);
              (js "timestamp", JDate (now env));
              (js "message", JString (js "Message sent successfully!"))])),
           mkStore (Link s) (Message s ++ [newMessage]))
      else
        sendMessage env s linkId (Some c) =
          (error 403 "This link is no longer accepting messages", s)
  end.
Proof.
  intros Ht Hl. destruct c as [|c0 c']; [done|].
  unfold sendMessage.
  replace (length (trim (c0 :: c')) =? 0)%nat with false
    by (symmetry; apply Nat.eqb_neq; by destruct (trim (c0 :: c'))).
  rewrite (proj2 (Nat.ltb_ge _ _)) by done.
  destruct (Link_findOne linkId s) as [[i link]|] eqn:Hfind; [|done].
  destruct (ILink.isActive link); cbn [negb]; [|done].
  intros Hwf [Hu Hfresh]. cbn zeta.
  apply Link_findOne_Some in Hfind as [Hi Hid].
  destruct (store_wf_link _ _ _ Hwf Hi) as [Hne _]. rewrite Hid in Hne.
  unfold Message_save, messageSchema.
  cbn [IMessage.messageId IMessage.linkId IMessage.content
       IMessage.anonymousSenderId IMessage.timestamp].
  rewrite (is_uuid_required _ Hu), generateAnonymousSenderId_required.
  rewrite (proj2 (required_true linkId)), (proj2 (required_true _) Ht) by done.
  rewrite (proj2 (Nat.leb_le _ _)) by (etrans; [apply trim_length|done]).
  by rewrite bool_decide_eq_true_2 by done.
Qed.

(** ** Message retrieval *)

(** C5. A retrieval request that presents the key of an existing link is
    answered with the link's metadata (identifier, title, description,
    active flag, creation time: the key is not among them), the messages
    whose [linkId] is that link's identifier and no others, newest first,
    each with its five fields (identifier, link, content, sender name,
    date), and [totalMessages] equal to their number. *)
Theorem getMessages_spec (s : Store) (linkId : jsstring) (i : nat)
    (link : ILink.t) :
  store_wf s →
  Link_findOne linkId s = Some (i, link) →
  ∃ messages,
    getMessages s linkId (Some (ILink.userKey link)) =
      (mkResponse 200 (Json (JObject
         [(js "success", JBool true);
          (js "linkInfo",
           JObject [(js "linkId", JString (ILink.linkId link));
                    (js "title", JString (ILink.title link));
                    (js "description", JString (ILink.description link));
                    (js "isActive", JBool (ILink.isActive link));
                    (js "createdAt", JDate (ILink.createdAt link))]);
          (js "messages",
           JArray ((λ m : IMessage.t,
              JObject
                [(js "messageId", JString (IMessage.messageId m));
                 (js "linkId", JString (IMessage.linkId m));
                 (js "content", JString (IMessage.content m));
                 (js "anonymousSenderId",
                  JString (IMessage.anonymousSenderId m));
                 (js "timestamp", JDate (IMessage.timestamp m))])
             <$> messages));
          (js "totalMessages", JNumber (Z.of_nat (length messages)))])), s)
    ∧ messages ≡ₚ
        filter (λ m, IMessage.linkId m = ILink.linkId link) (Message s)
    ∧ StronglySorted (newest_first IMessage.timestamp) messages
    ∧ length messages =
        length (filter (λ m, IMessage.linkId m = ILink.linkId link)
                       (Message s)).
Proof.
  intros Hwf Hfind. exists (Message_find linkId s).
  pose proof (Link_findOne_Some _ _ _ _ Hfind) as [Hi Hid].
  destruct (store_wf_link _ _ _ Hwf Hi) as [_ Hkey].
  unfold getMessages. destruct (ILink.userKey link) as [|c k] eqn:Hk; [done|].
  rewrite Hfind, Hk, validateKey_refl. cbn [negb]. rewrite Hid.
  unfold Message_find. split; [done|]. split; [apply sort_desc_Permutation|].
  split; [apply sort_desc_sorted|apply sort_desc_length].
Qed.

(** ** Link listing *)

(** C8. A listing request with a key is answered with the links whose
    [userKey] is that key and no others, newest first; each entry carries
    the number of messages whose [linkId] is the link's identifier and the
    share path, and does not carry the key. *)
Theorem getLinks_spec (s : Store) (k : jsstring) :
  k ≠ [] →
  ∃ links,
    getLinks s (Some k) =
      (mkResponse 200 (Json (JObject
         [(js "success", JBool true);
          (js "links",
           JArray ((λ link : ILink.t,
             JObject
               [(js "linkId", JString (ILink.linkId link));
                (js "title", JString (ILink.title link));
                (js "description", JString (ILink.description link));
                (js "isActive", JBool (ILink.isActive link));
                (js "createdAt", JDate (ILink.createdAt link));
                (js "messageCount",
                 JNumber (Z.of_nat (length
                   (filter (λ m, IMessage.linkId m = ILink.linkId link)
                           (Message s)))));
                (js "shareUrl", JString (js "/share/" ++ ILink.linkId link))])
             <$> links));
          (js "totalLinks", JNumber (Z.of_nat (length links)))])), s)
    ∧ links ≡ₚ filter (λ l, ILink.userKey l = k) (Link s)
    ∧ StronglySorted (newest_first ILink.createdAt) links.
Proof.
  intros Hk.
  exists (sort_desc ILink.createdAt
            (filter (λ l, ILink.userKey l = k) (Link s))).
  split; [|split; [apply sort_desc_Permutation|apply sort_desc_sorted]].
  destruct k as [|c k]; [done|]. unfold getLinks, Link_find.
  by rewrite <- !list_fmap_compose, !length_fmap.
Qed.

(** ** Visibility toggle *)

(** Writing back at the position a lookup returned keeps the lookup there,
    as long as the new document still matches. *)
Lemma list_find_insert_same {A} (P : A → Prop) `{∀ x, Decision (P x)}
    (l : list A) i x y :
  list_find P l = Some (i, x) → P y →
  list_find P (<[i := y]> l) = Some (i, y).
Proof.
  intros (Hi & _ & Hbefore)%list_find_Some Hy. apply list_find_Some.
  split; [apply list_lookup_insert_eq; by eapply lookup_lt_Some|].
  split; [done|]. intros j z Hj Hlt.
  rewrite list_lookup_insert_ne in Hj by lia. by eapply Hbefore.
Qed.

Lemma set_isActive_twice link :
  let link' := ILink.set_isActive (negb (ILink.isActive link)) link in
  ILink.set_isActive (negb (ILink.isActive link')) link' = link.
Proof. destruct link as [? ? ? ? []]; done. Qed.

(** C4. For every stored link, toggling twice with the link's key succeeds
    twice, flips [isActive] the first time and gives back the original
    value (indeed the original store) the second time; a toggle with any
    other key is answered unauthorized and leaves the store unchanged. *)
Theorem toggleVisibility_twice (s : Store) (linkId : jsstring) (i : nat)
    (link : ILink.t) :
  store_wf s →
  Link_findOne linkId s = Some (i, link) →
  let key := Some (ILink.userKey link) in
  (∃ r1 s1 r2,
      toggleVisibility s linkId key = (r1, s1) ∧ status r1 = 200
      ∧ Link_findOne linkId s1 =
          Some (i, ILink.set_isActive (negb (ILink.isActive link)) link)
      ∧ toggleVisibility s1 linkId key = (r2, s) ∧ status r2 = 200)
  ∧ (∀ wrong, wrong ≠ key →
       ∃ r, toggleVisibility s linkId wrong = (r, s) ∧ status r = 401).
Proof.
  intros Hwf Hfind key.
  pose proof (Link_findOne_Some _ _ _ _ Hfind) as [Hi Hid].
  pose proof (proj1 Hwf) as Hschema. rewrite Forall_lookup in Hschema.
  pose proof (Hschema i link Hi) as Hlink.
  destruct (store_wf_link _ _ _ Hwf Hi) as [_ Hkey].
  split.
  - subst key. unfold toggleVisibility at 1.
    destruct (ILink.userKey link) as [|c k] eqn:Hk; [done|].
    rewrite Hfind, Hk, validateKey_refl. cbn [negb].
    set (link' := ILink.set_isActive (negb (ILink.isActive link)) link).
    assert (Hlink' : linkSchema link' = true) by done.
    unfold Link_update. rewrite Hlink'.
    set (s1 := mkStore (<[i:=link']> (Link s)) (Message s)).
    assert (Hfind1 : Link_findOne linkId s1 = Some (i, link')).
    { unfold Link_findOne, s1. cbn [Link].
      by apply (list_find_insert_same _ _ _ link). }
    eexists _, s1, _. split; [done|]. split; [done|]. split; [done|].
    unfold toggleVisibility. rewrite Hfind1.
    change (ILink.userKey link') with (ILink.userKey link).
    rewrite Hk, validateKey_refl. cbn [negb].
    unfold Link_update. subst link'.
    rewrite (set_isActive_twice link), Hlink.
    unfold s1. cbn [Link Message].
    rewrite list_insert_insert_eq, list_insert_id by done.
    destruct s. done.
  - intros wrong Hwrong. unfold toggleVisibility.
    destruct wrong as [[|c k]|]; [by eexists|..|by eexists].
    rewrite Hfind. unfold validateKey.
    rewrite bool_decide_eq_false_2 by (intros Heq; apply Hwrong; by rewrite Heq).
    by eexists.
Qed.

(** ** Message deletion *)

Lemma NoDup_fmap_delete {A B} (f : A → B) (l : list A) j x :
  NoDup (f <$> l) → l !! j = Some x → ∀ y, y ∈ delete j l → f y ≠ f x.
Proof.
  intros Hnd Hj y Hy. rewrite <- (take_drop_middle l j x Hj) in Hnd.
  rewrite fmap_app, fmap_cons in Hnd.
  apply NoDup_app in Hnd as (_ & Hdisj & [Hx _]%NoDup_cons).
  rewrite delete_take_drop in Hy. apply elem_of_app in Hy as [Hy|Hy].
  - intros Heq. apply (Hdisj (f y)); [by apply list_elem_of_fmap_2|].
    rewrite Heq. by left.
  - intros Heq. apply Hx. rewrite <- Heq. by apply list_elem_of_fmap_2.
Qed.

(** C6 (as amended). A message-deletion request that carries a key is
    answered not-found when no message has the identifier; not-found with
    its own wording when the message's link is missing; unauthorized,
    without deleting, when the key is not the key of the message's link.
    Otherwise that message and no other is removed, and a retrieval of the
    link's messages afterwards does not include it. *)
Theorem deleteMessage_spec (s : Store) (messageId k : jsstring) :
  store_wf s → k ≠ [] →
  match Message_findOne messageId s with
  | None =>
      deleteMessage s messageId (Some k) = (error 404 "Message not found", s)
  | Some (j, message) =>
      match Link_findOne (IMessage.linkId message) s with
      | None =>
          deleteMessage s messageId (Some k) =
            (error 404 "Associated link not found", s)
      | Some (_, link) =>
          if decide (k = ILink.userKey link) then
            ∃ r s',
              deleteMessage s messageId (Some k) = (r, s')
              ∧ status r = 200
              ∧ Link s' = Link s
              ∧ Message s !! j = Some message
              ∧ Message s' = delete j (Message s)
              ∧ (∃ r' messages,
                   getMessages s' (IMessage.linkId message) (Some k) = (r', s')
                   ∧ status r' = 200
                   ∧ body r' =
                       Json (JObject
                         [(js "success", JBool true);
                          (js "linkInfo",
                           linkInfo (ILink.linkId link) (ILink.title link)
                             (ILink.description link) (ILink.isActive link)
                             (ILink.createdAt link));
                          (js "messages", JArray (json_of_message <$> messages));
                          (js "totalMessages",
                           JNumber (Z.of_nat (length messages)))])
                   ∧ Forall (λ m, IMessage.messageId m ≠ messageId) messages)
          else
            deleteMessage s messageId (Some k) = (error 401 "Invalid key", s)
      end
  end.
Proof.
  intros Hwf Hk. destruct k as [|c k]; [done|]. unfold deleteMessage.
  destruct (Message_findOne messageId s) as [[j message]|] eqn:Hm; [|done].
  destruct (Link_findOne _ s) as [[i link]|] eqn:Hl; [|done].
  unfold validateKey. destruct (decide (c :: k = ILink.userKey link)) as [Hkey|Hkey].
  - rewrite bool_decide_eq_true_2 by done. cbn [negb].
    pose proof (Message_findOne_Some _ _ _ _ Hm) as [Hj Hid].
    unfold Message_deleteOne. rewrite Hm.
    set (s' := mkStore (Link s) (delete j (Message s))).
    eexists _, s'. split; [done|]. split; [done|]. split; [done|].
    split; [done|]. split; [done|].
    exists (getMessages s' (IMessage.linkId message) (Some (c :: k))).1,
           (Message_find (IMessage.linkId message) s').
    assert (Hl' : Link_findOne (IMessage.linkId message) s' = Some (i, link))
      by done.
    unfold getMessages. rewrite Hl'. unfold validateKey.
    rewrite bool_decide_eq_true_2 by done. cbn [negb fst].
    split; [done|]. split; [done|]. split; [done|].
    apply Forall_forall. intros m Hin.
    unfold Message_find in Hin. rewrite sort_desc_Permutation in Hin.
    apply list_elem_of_filter in Hin as [_ Hin]. cbn [Message s'] in Hin.
    destruct Hwf as (_ & _ & _ & Hnd). rewrite <- Hid.
    by eapply (NoDup_fmap_delete IMessage.messageId).
  - by rewrite bool_decide_eq_false_2.
Qed.

(** ** The key never leaves the service *)

(** *** No field named [userKey] *)





(** *** Responses do not depend on stored keys *)







(** * Further properties of the handlers *)

(** ** Sessions keep the store well formed *)

Lemma run_store_wf session : ∀ s, store_wf s → store_wf (run s session).
Proof.
  induction session as [|[env req] session IH]; intros s Hwf; [done|].
  cbn [run]. apply IH. by apply store_wf_invariant.
Qed.

(** X1. Every store the service reaches from the empty database, through
    any sequence of requests in any environments, is well formed: link
    identifiers are unique and not empty, stored keys are not empty (a
    key sent as a JSON number or boolean passes the length guard and is
    stored as its short text, so no minimal length holds), message
    identifiers are unique, and every stored content has between 1 and
    1000 characters. *)
Theorem reachable_store_wf (session : list (Env * Request)) :
  let s := run (mkStore [] []) session in
  NoDup (ILink.linkId <$> Link s)
  ∧ NoDup (IMessage.messageId <$> Message s)
  ∧ Forall (λ l, ILink.linkId l ≠ [] ∧ ILink.userKey l ≠ []) (Link s)
  ∧ Forall (λ m, (1 ≤ length (IMessage.content m) ≤ 1000)%nat
                 ∧ IMessage.messageId m ≠ [] ∧ IMessage.linkId m ≠ [])
           (Message s).
Proof.
  intros s.
  assert (Hwf : store_wf s).
  { apply run_store_wf, store_wf_invariant. }
  destruct Hwf as (Hl & Hids & Hm & Hmids).
  split; [done|]. split; [done|]. split.
  - eapply Forall_impl; [exact Hl|]. intros l [H1 H2]%andb_prop.
    split; by apply required_true.
  - eapply Forall_impl; [exact Hm|]. intros m Hs. unfold messageSchema in Hs.
    apply andb_prop in Hs as [Hs _]. apply andb_prop in Hs as [Hs Hlen].
    apply andb_prop in Hs as [Hs Hc]. apply andb_prop in Hs as [Hid Hlid].
    apply Nat.leb_le in Hlen. apply required_true in Hc, Hid, Hlid.
    split; [|done]. destruct (IMessage.content m); [done|simpl in *; lia].
Qed.

(** ** What was written can be read back *)



Lemma Message_find_snoc linkId s ls (m : IMessage.t) :
  Message_find linkId (mkStore ls (Message s ++ [m]))
  ≡ₚ (if decide (IMessage.linkId m = linkId) then [m] else [])
     ++ filter (λ m, IMessage.linkId m = linkId) (Message s).
Proof.
  unfold Message_find. cbn [Message].
  rewrite sort_desc_Permutation, filter_app, filter_cons, filter_nil.
  destruct (decide (IMessage.linkId m = linkId)); [|by rewrite app_nil_r].
  apply Permutation_app_comm.
Qed.

(** X3. A message that was sent can be retrieved: when sending answers
    201, the owner's retrieval for that link returns, each with its five
    fields, the messages the link had before together with the new one
    (the identifier drawn, the link, the trimmed content, the generated
    name, the time of the request), and [totalMessages] has grown by
    one. *)
Theorem sendMessage_getMessages (env : Env) (s : Store)
    (linkId : jsstring) (content : option jsstring) (i : nat)
    (link : ILink.t) :
  store_wf s →
  Link_findOne linkId s = Some (i, link) →
  status (sendMessage env s linkId content).1 = 201 →
  let s' := (sendMessage env s linkId content).2 in
  ∃ c messages,
    content = Some c
    ∧ getMessages s' linkId (Some (ILink.userKey link)) =
        (mkResponse 200 (Json (JObject
           [(js "success", JBool true);
            (js "linkInfo",
             JObject [(js "linkId", JString (ILink.linkId link));
                      (js "title", JString (ILink.title link));
                      (js "description", JString (ILink.description link));
                      (js "isActive", JBool (ILink.isActive link));
                      (js "createdAt", JDate (ILink.createdAt link))]);
            (js "messages",
             JArray ((λ m : IMessage.t,
              JObject
                [(js "messageId", JString (IMessage.messageId m));
                 (js "linkId", JString (IMessage.linkId m));
                 (js "content", JString (IMessage.content m));
                 (js "anonymousSenderId",
                  JString (IMessage.anonymousSenderId m));
                 (js "timestamp", JDate (IMessage.timestamp m))])
               <$> messages));
            (js "totalMessages",
             JNumber (Z.of_nat (S (Message_countDocuments linkId s))))])),
         s')
    ∧ messages ≡ₚ
        IMessage.mk (uuidv4 env) linkId (trim c)
          (generateAnonymousSenderId (Math_random env)) (now env)
        :: filter (λ m, IMessage.linkId m = linkId) (Message s).
Proof.
  intros Hwf Hfind.
  pose proof (Link_findOne_Some _ _ _ _ Hfind) as [Hi Hid].
  destruct (store_wf_link _ _ _ Hwf Hi) as [_ Hkey].
  unfold sendMessage. destruct content as [[|c0 c']|]; [done| |done].
  destruct (length (trim (c0 :: c')) =? 0)%nat; [done|].
  destruct (1000 <? length (c0 :: c'))%nat; [done|].
  rewrite Hfind. destruct (negb (ILink.isActive link)); [done|].
  unfold Message_save. destruct (messageSchema _ && bool_decide _); [|done].
  intros _. cbn zeta. cbn [snd].
  set (m := IMessage.mk _ _ _ _ _).
  pose proof (Message_find_snoc linkId s (Link s) m) as Hperm.
  rewrite decide_True in Hperm by done.
  set (s' := mkStore (Link s) (Message s ++ [m])) in *.
  assert (Hlen : length (Message_find linkId s')
                 = S (Message_countDocuments linkId s))
    by (by rewrite Hperm).
  exists (c0 :: c'), (Message_find linkId s').
  split; [done|]. split; [|exact Hperm].
  unfold getMessages. destruct (ILink.userKey link) as [|ck k] eqn:Hk; [done|].
  change (Link_findOne linkId s') with (Link_findOne linkId s).
  rewrite Hfind, Hk, validateKey_refl. cbn [negb].
  by rewrite Hlen.
Qed.

(** X4. The public info route answers not-found exactly when no link has
    the identifier; for a stored link, active or not, it returns (without
    asking for a key, without changing the store) the same [linkInfo]
    block the owner gets from message retrieval. *)
Theorem getLinkInfo_spec (s : Store) (linkId : jsstring) :
  match Link_findOne linkId s with
  | None => getLinkInfo s linkId = (error 404 "Link not found", s)
  | Some (_, link) =>
      getLinkInfo s linkId =
        (mkResponse 200 (Json (JObject
           [(js "success", JBool true);
            (js "linkInfo",
             linkInfo (ILink.linkId link) (ILink.title link)
               (ILink.description link) (ILink.isActive link)
               (ILink.createdAt link))])), s)
      ∧ (ILink.userKey link ≠ [] →
         response_get "linkInfo"
           (getMessages s linkId (Some (ILink.userKey link))).1
         = response_get "linkInfo" (getLinkInfo s linkId).1)
  end.
Proof.
  unfold getLinkInfo.
  destruct (Link_findOne linkId s) as [[i link]|] eqn:Hfind; [|done].
  split; [done|]. intros Hkey. unfold getMessages.
  destruct (ILink.userKey link) as [|c k] eqn:Hk; [done|].
  by rewrite Hfind, Hk, validateKey_refl.
Qed.

(** ** What a request can and cannot do to the store *)

(** Opens every branch of a handler. *)
Ltac handler_cases :=
  unfold app, limited, postLinksCreate, postMessagesSend, createLink,
    sendMessage, getMessages, getLinks, deleteMessage, toggleVisibility,
    getLinkInfo, Link_save, Link_update, Message_save, Message_deleteOne;
  repeat case_match; simplify_eq;
  cbn [fst snd status body error Link Message] in *.

(** X5. A request that is not answered 200 or 201 leaves the store exactly
    as it was (validation, authorization, not-found, forbidden, rate-limit
    and internal errors have no side effect), and so does every GET
    request whatever its answer. *)
Theorem failure_leaves_store (env : Env) (s : Store) (req : Request) :
  is_get req = true
  ∨ (status (app env s req).1 ≠ 200 ∧ status (app env s req).1 ≠ 201) →
  (app env s req).2 = s.
Proof.
  intros [Hget|[H200 H201]]; destruct req; try done;
    revert H200 H201 || clear Hget; handler_cases; done.
Qed.

(** X6. Every answer is either a success, with status 200 or 201 and (but
    for the welcome text) a JSON body that says [success: true], or an
    error whose body is exactly [{ error: message }] with one of the
    statuses 400, 401, 403, 404, 429, 500. *)
Theorem response_shape (env : Env) (s : Store) (req : Request) :
  let r := (app env s req).1 in
  (∃ c msg, r = error c msg
            ∧ (c = 400 ∨ c = 401 ∨ c = 403 ∨ c = 404 ∨ c = 429 ∨ c = 500))
  ∨ ((status r = 200 ∨ status r = 201)
     ∧ (req = GetRoot ∨ response_get "success" r = Some (JBool true))).
Proof.
  destruct req; handler_cases;
    first [ left; eexists _, _; split; [reflexivity|]; tauto
          | right; split; [tauto|]; first [by left|by right] ].
Qed.

(** X7. Links are never removed and never rewritten: after any request,
    each stored link is still at its place with the same identifier, key,
    title, description and creation time.  Its [isActive] flag differs
    only after a visibility toggle on that link made with its key, which
    flips it. *)
Theorem links_persist (env : Env) (s : Store) (req : Request) (i : nat)
    (link : ILink.t) :
  Link s !! i = Some link →
  ∃ b, Link (app env s req).2 !! i = Some (ILink.set_isActive b link)
       ∧ (b ≠ ILink.isActive link →
          req = PostToggleVisibility (ILink.linkId link)
                  (Some (ILink.userKey link))
          ∧ b = negb (ILink.isActive link)).
Proof.
  intros Hi.
  assert (Hsame : ILink.set_isActive (ILink.isActive link) link = link)
    by (by destruct link).
  assert (Hkeep : ∀ s', Link s' !! i = Some link →
            ∃ b, Link s' !! i = Some (ILink.set_isActive b link)
                 ∧ (b ≠ ILink.isActive link →
                    req = PostToggleVisibility (ILink.linkId link)
                            (Some (ILink.userKey link))
                    ∧ b = negb (ILink.isActive link))).
  { intros s' Hs'. exists (ILink.isActive link). by rewrite Hsame. }
  destruct req as [b|linkId b|linkId key|key
                  |messageId key|linkId key|linkId|];
    try (apply Hkeep; handler_cases; try done; by apply lookup_app_l_Some).
  cbn [app]. unfold toggleVisibility.
  destruct key as [[|c k]|]; [by apply Hkeep| |by apply Hkeep].
  destruct (Link_findOne linkId s) as [[j found]|] eqn:Hfind;
    [|by apply Hkeep].
  unfold validateKey. case_bool_decide as Hkey; [|by apply Hkeep].
  cbn [negb]. unfold Link_update. destruct (linkSchema _); [|by apply Hkeep].
  cbn [snd Link]. apply Link_findOne_Some in Hfind as [Hj Hid].
  destruct (decide (i = j)) as [->|Hne].
  - assert (found = link) as -> by congruence.
    exists (negb (ILink.isActive link)).
    rewrite list_lookup_insert_eq by (by eapply lookup_lt_Some).
    split; [done|]. intros _. by rewrite Hid, Hkey.
  - rewrite list_lookup_insert_ne by done. by apply Hkeep.
Qed.

Lemma value_null (b : value) : b = VNull ∨ b ≠ VNull.
Proof. destruct b; (by left) || by right. Qed.

(** On a body that was parsed, the send route reads [content]. *)
Lemma postMessagesSend_parsed env s linkId (b : value) :
  b ≠ VNull →
  postMessagesSend env s linkId (Some b) =
    match body_field "content" b with
    | None => sendMessage env s linkId None
    | Some (VString content) => sendMessage env s linkId (Some content)
    | Some content =>
        if ToBoolean (Some content)
        then (error 500 "Internal server error", s)
        else (error 400 "Message content is required", s)
    end.
Proof. by destruct b. Qed.

(** X8. Messages are never edited.  A request leaves the message
    collection as it is, or it is a send that appends one message (for its
    link, with the trimmed content), or it is a deletion that removes the
    one message at the place where the identifier was found. *)
Theorem messages_persist (env : Env) (s : Store) (req : Request) :
  let s' := (app env s req).2 in
  Message s' = Message s
  ∨ (∃ linkId b c m,
       req = PostMessagesSend linkId (Some b)
       ∧ body_field "content" b = Some (VString c)
       ∧ Message s' = Message s ++ [m]
       ∧ IMessage.linkId m = linkId ∧ IMessage.content m = trim c)
  ∨ (∃ messageId key j m,
       req = DeleteMessage messageId key
       ∧ Message_findOne messageId s = Some (j, m)
       ∧ Message s' = delete j (Message s)).
Proof.
  destruct req as [b|linkId b|linkId key|key
                  |messageId key|linkId key|linkId|];
    try (left; handler_cases; done).
  - cbn [app]. unfold limited. destruct (rateLimited env); [by left|].
    destruct b as [b|]; [|by left].
    destruct (value_null b) as [->|Hnull]; [by left|].
    rewrite postMessagesSend_parsed by done.
    destruct (body_field "content" b) as [[| | |content| |]|] eqn:Hb;
      try (repeat case_match; by left).
    unfold sendMessage. destruct content as [|c0 c']; [by left|].
    repeat case_match; try (by left).
    unfold Message_save in *. case_match; simplify_eq.
    right; left. eexists _, _, _, _. split; [done|]. split; [done|].
    by split.
  - cbn [app]. unfold deleteMessage.
    destruct key as [[|c k]|]; [by left| |by left].
    destruct (Message_findOne messageId s) as [[j m]|] eqn:Hm; [|by left].
    repeat case_match; try (by left).
    right; right. exists messageId, (Some (c :: k)), j, m.
    split; [done|]. split; [done|]. unfold Message_deleteOne. by rewrite Hm.
Qed.

(** X10. No success without the key: a 200 answer to message retrieval or
    to a visibility toggle means the link exists and the request carried
    exactly its key; a 200 answer to a deletion means the message exists,
    its link exists, and the request carried that link's key; a 200 answer
    to the listing means a key was given. *)
Theorem success_needs_key (env : Env) (s : Store) (req : Request) :
  status (app env s req).1 = 200 →
  match req with
  | GetMessages linkId key | PostToggleVisibility linkId key =>
      ∃ i link, Link_findOne linkId s = Some (i, link)
                ∧ key = Some (ILink.userKey link)
  | DeleteMessage messageId key =>
      ∃ j message i link,
        Message_findOne messageId s = Some (j, message)
        ∧ Link_findOne (IMessage.linkId message) s = Some (i, link)
        ∧ key = Some (ILink.userKey link)
  | GetLinks key => truthy key = true
  | _ => True
  end.
Proof.
  destruct req as [b|linkId b|linkId key|key
                  |messageId key|linkId key|linkId|]; try done; cbn [app].
  - unfold getMessages. destruct key as [[|c k]|]; [done| |done].
    destruct (Link_findOne linkId s) as [[i link]|]; [|done].
    unfold validateKey. case_bool_decide as Hk; [|done]. intros _.
    exists i, link. by rewrite Hk.
  - unfold getLinks. by destruct key as [[|c k]|].
  - unfold deleteMessage. destruct key as [[|c k]|]; [done| |done].
    destruct (Message_findOne messageId s) as [[j m]|]; [|done].
    destruct (Link_findOne _ s) as [[i link]|] eqn:Hl; [|done].
    unfold validateKey. case_bool_decide as Hk; [|done]. intros _.
    exists j, m, i, link. by rewrite Hk.
  - unfold toggleVisibility. destruct key as [[|c k]|]; [done| |done].
    destruct (Link_findOne linkId s) as [[i link]|]; [|done].
    unfold validateKey. case_bool_decide as Hk; [|done]. intros _.
    exists i, link. by rewrite Hk.
Qed.

(** ** How the operations compose *)

(** X9. The visibility flag governs sending.  After the owner toggles a
    link that was active, a send to it with valid content is answered 403
    and stores nothing; after the owner toggles a link that was inactive,
    a send to it is no longer answered 403. *)
Theorem toggled_link_and_sending (env : Env) (s : Store)
    (linkId c : jsstring) (i : nat) (link : ILink.t) :
  store_wf s →
  Link_findOne linkId s = Some (i, link) →
  trim c ≠ [] → (length c ≤ 1000)%nat →
  let s1 := (toggleVisibility s linkId (Some (ILink.userKey link))).2 in
  if ILink.isActive link then
    sendMessage env s1 linkId (Some c) =
      (error 403 "This link is no longer accepting messages", s1)
  else
    status (sendMessage env s1 linkId (Some c)).1 ≠ 403.
Proof.
  intros Hwf Hfind Ht Hl.
  pose proof (Link_findOne_Some _ _ _ _ Hfind) as [Hi Hid].
  pose proof (proj1 Hwf) as Hschema. rewrite Forall_lookup in Hschema.
  pose proof (Hschema i link Hi) as Hlink.
  destruct (store_wf_link _ _ _ Hwf Hi) as [_ Hkey].
  unfold toggleVisibility.
  destruct (ILink.userKey link) as [|ck k] eqn:Hk; [done|].
  rewrite Hfind, Hk, validateKey_refl. cbn [negb].
  set (link' := ILink.set_isActive (negb (ILink.isActive link)) link).
  assert (Hlink' : linkSchema link' = true) by done.
  unfold Link_update. rewrite Hlink'. cbn [snd].
  set (s1 := mkStore (<[i:=link']> (Link s)) (Message s)).
  assert (Hfind1 : Link_findOne linkId s1 = Some (i, link')).
  { unfold Link_findOne, s1. cbn [Link].
    by apply (list_find_insert_same _ _ _ link). }
  cbn zeta. destruct c as [|c0 c']; [done|]. unfold sendMessage.
  replace (length (trim (c0 :: c')) =? 0)%nat with false
    by (symmetry; apply Nat.eqb_neq; by destruct (trim (c0 :: c'))).
  rewrite (proj2 (Nat.ltb_ge _ _)) by done. rewrite Hfind1.
  change (ILink.isActive link') with (negb (ILink.isActive link)).
  destruct (ILink.isActive link); cbn [negb]; [done|].
  by destruct (Message_save _ s1).
Qed.

Lemma Message_findOne_deleted (s : Store) messageId j m ls :
  NoDup (IMessage.messageId <$> Message s) →
  Message_findOne messageId s = Some (j, m) →
  Message_findOne messageId (mkStore ls (delete j (Message s))) = None.
Proof.
  intros Hnd [Hj Hid]%Message_findOne_Some.
  apply list_find_None, Forall_forall. intros y Hy. cbn [Message] in Hy.
  rewrite <- Hid. by eapply (NoDup_fmap_delete IMessage.messageId).
Qed.

(** X11. A message is deleted once: when a deletion answers 200, the same
    request sent again is answered "Message not found" and changes
    nothing. *)
Theorem deleteMessage_twice (s : Store) (messageId : jsstring)
    (key : option jsstring) :
  store_wf s →
  status (deleteMessage s messageId key).1 = 200 →
  let s' := (deleteMessage s messageId key).2 in
  deleteMessage s' messageId key = (error 404 "Message not found", s').
Proof.
  intros (_ & _ & _ & Hnd). unfold deleteMessage at 1 2.
  destruct key as [[|c k]|]; [done| |done].
  destruct (Message_findOne messageId s) as [[j m]|] eqn:Hm; [|done].
  destruct (Link_findOne _ s) as [[i link]|]; [|done].
  destruct (negb (validateKey _ _)); [done|]. intros _. cbn zeta. cbn [snd].
  unfold Message_deleteOne. rewrite Hm. unfold deleteMessage.
  by rewrite (Message_findOne_deleted s messageId j m (Link s) Hnd Hm).
Qed.

(** ** Links do not interfere with each other *)

Lemma filter_snoc_other {A} (P : A → Prop) `{∀ x, Decision (P x)}
    (l : list A) x :
  ¬ P x → filter P (l ++ [x]) = filter P l.
Proof.
  intros Hx. rewrite filter_app, filter_cons, decide_False by done.
  by rewrite filter_nil, app_nil_r.
Qed.

Lemma filter_delete_other {A} (P : A → Prop) `{∀ x, Decision (P x)}
    (l : list A) (j : nat) x :
  l !! j = Some x → ¬ P x → filter P (delete j l) = filter P l.
Proof.
  intros Hj Hx. rewrite <- (take_drop_middle l j x Hj) at 2.
  rewrite delete_take_drop, !filter_app, filter_cons.
  by rewrite decide_False by done.
Qed.

Lemma list_find_insert_other {A} (P : A → Prop) `{∀ x, Decision (P x)}
    (l : list A) j x y :
  l !! j = Some x → ¬ P x → ¬ P y →
  list_find P (<[j := y]> l) = list_find P l.
Proof.
  revert j. induction l as [|z l IH]; intros j Hj Hx Hy; [done|].
  destruct j as [|j]; cbn [list_find].
  - injection Hj as ->. cbn [insert list_insert list_find].
    by rewrite !decide_False by done.
  - cbn [insert list_insert list_find]. destruct (decide (P z)); [done|].
    f_equal. by apply IH.
Qed.


(** What the routes tell about a link: public info, owner retrieval, and
    the answer to a send. *)
Lemma same_answers_for (s s' : Store) (other : jsstring) :
  Link_findOne other s' = Link_findOne other s →
  Message_find other s' = Message_find other s →
  (∀ key, (getMessages s' other key).1 = (getMessages s other key).1)
  ∧ (getLinkInfo s' other).1 = (getLinkInfo s other).1.
Proof.
  intros Hl Hm. split.
  - intros key. unfold getMessages. rewrite Hl, Hm.
    destruct key as [[|c k]|]; [done| |done].
    destruct (Link_findOne other s) as [[i link]|]; [|done].
    by destruct (negb (validateKey _ _)).
  - unfold getLinkInfo. rewrite Hl.
    by destruct (Link_findOne other s) as [[i link]|].
Qed.

(** X12. Sending to one link does not show on another: whatever the
    outcome of a send to [linkId], message retrieval for any other link
    and the public info of every link answer as before. *)
Theorem sendMessage_isolation (env : Env) (s : Store) (linkId other : jsstring)
    (content : option jsstring) :
  other ≠ linkId →
  let s' := (sendMessage env s linkId content).2 in
  (∀ key, (getMessages s' other key).1 = (getMessages s other key).1)
  ∧ (∀ any, (getLinkInfo s' any).1 = (getLinkInfo s any).1).
Proof.
  intros Hne s'.
  assert (Hs' : s' = s ∨ ∃ m, IMessage.linkId m = linkId
                             ∧ s' = mkStore (Link s) (Message s ++ [m])).
  { subst s'. unfold sendMessage, Message_save.
    repeat case_match; simplify_eq; cbn [fst snd] in *; try (by left).
    all: right; eexists; split; [|reflexivity]; reflexivity. }
  clearbody s'. destruct Hs' as [->|(m & Hm & ->)]; [done|]. split.
  - apply same_answers_for; [done|]. unfold Message_find. cbn [Message].
    rewrite filter_snoc_other; [done|]. rewrite Hm. by intros ->.
  - intros any. unfold getLinkInfo.
    change (Link_findOne any (mkStore (Link s) (Message s ++ [m])))
      with (Link_findOne any s).
    by destruct (Link_findOne any s) as [[? ?]|].
Qed.

(** X13. Toggling one link does not show on another: whatever the outcome
    of a toggle on [linkId], the public info and the message retrieval of
    any other link answer as before, and so does a send to it. *)
Theorem toggleVisibility_isolation (env : Env) (s : Store)
    (linkId other : jsstring) (key : option jsstring) :
  other ≠ linkId →
  let s' := (toggleVisibility s linkId key).2 in
  (∀ key', (getMessages s' other key').1 = (getMessages s other key').1)
  ∧ (getLinkInfo s' other).1 = (getLinkInfo s other).1
  ∧ (∀ content, (sendMessage env s' other content).1
                = (sendMessage env s other content).1).
Proof.
  intros Hne s'.
  assert (Hs' : Link_findOne other s' = Link_findOne other s
                ∧ Message s' = Message s).
  { subst s'. unfold toggleVisibility.
    destruct key as [[|c k]|]; [done| |done].
    destruct (Link_findOne linkId s) as [[j found]|] eqn:Hfind; [|done].
    destruct (negb (validateKey _ _)); [done|].
    unfold Link_update. destruct (linkSchema _); [|done]. cbn [snd].
    apply Link_findOne_Some in Hfind as [Hj Hid]. split; [|done].
    unfold Link_findOne. cbn [Link].
    apply (list_find_insert_other _ _ _ found); [done|..];
      cbn [ILink.set_isActive ILink.linkId]; congruence. }
  clearbody s'. destruct Hs' as [Hl Hm].
  assert (Hfind : Message_find other s' = Message_find other s)
    by (unfold Message_find; by rewrite Hm).
  destruct (same_answers_for s s' other Hl Hfind) as [H1 H2].
  split; [done|]. split; [done|].
  intros content. unfold sendMessage, Message_save. rewrite Hl, Hm.
  repeat case_match; simplify_eq; cbn [fst snd] in *; done.
Qed.

(** X14. Deleting a message of one link does not show on another: when
    the message found under the identifier belongs to a link other than
    [other], message retrieval and public info for [other] answer as
    before, whatever the outcome of the deletion. *)
Theorem deleteMessage_isolation (s : Store)
    (messageId other : jsstring) (key : option jsstring) (j : nat)
    (m : IMessage.t) :
  Message_findOne messageId s = Some (j, m) →
  IMessage.linkId m ≠ other →
  let s' := (deleteMessage s messageId key).2 in
  (∀ key', (getMessages s' other key').1 = (getMessages s other key').1)
  ∧ (getLinkInfo s' other).1 = (getLinkInfo s other).1.
Proof.
  intros Hm Hne s'.
  assert (Hs' : s' = s ∨ s' = mkStore (Link s) (delete j (Message s))).
  { subst s'. unfold deleteMessage, Message_deleteOne. rewrite Hm.
    repeat case_match; simplify_eq; cbn [fst snd] in *; try (by left); by right. }
  clearbody s'. destruct Hs' as [-> | ->]; [done|].
  apply same_answers_for; [done|]. unfold Message_find. cbn [Message].
  apply Message_findOne_Some in Hm as [Hj _].
  by rewrite (filter_delete_other _ _ j m).
Qed.


(** ** Listing and retrieval agree *)

(** X16. The listing and the retrieval count the same messages: for a
    stored link, the [messageCount] of its entry in the owner's listing is
    the [totalMessages] of the owner's retrieval for that link. *)
Theorem messageCount_is_totalMessages (s : Store) (linkId : jsstring)
    (i : nat) (link : ILink.t) :
  store_wf s →
  Link_findOne linkId s = Some (i, link) →
  let key := Some (ILink.userKey link) in
  ∃ n entries entry,
    response_get "totalMessages" (getMessages s linkId key).1
      = Some (JNumber n)
    ∧ response_get "links" (getLinks s key).1 = Some (JArray entries)
    ∧ entry ∈ entries
    ∧ json_get "linkId" entry = Some (JString linkId)
    ∧ json_get "messageCount" entry = Some (JNumber n).
Proof.
  intros Hwf Hfind key.
  pose proof (Link_findOne_Some _ _ _ _ Hfind) as [Hi Hid].
  destruct (store_wf_link _ _ _ Hwf Hi) as [_ Hkey].
  subst key. unfold getMessages, getLinks.
  destruct (ILink.userKey link) as [|c k] eqn:Hk; [done|].
  rewrite Hfind, Hk, validateKey_refl. cbn [negb fst].
  exists (Z.of_nat (length (Message_find linkId s))),
         (linkWithCount s <$> Link_find (c :: k) s),
         (linkWithCount s (ILink.select link)).
  split; [done|]. split; [done|]. split.
  - apply list_elem_of_fmap_2. unfold Link_find.
    apply list_elem_of_fmap_2. rewrite sort_desc_Permutation.
    apply list_elem_of_filter. split; [done|].
    by eapply list_elem_of_lookup_2.
  - unfold linkWithCount, Message_countDocuments, Message_find.
    cbn [ILink.select ILink.s_linkId]. rewrite Hid, sort_desc_length.
    by split.
Qed.

(** ** Stored contents are trimmed *)

Lemma trimStart_fixed s :
  match s with c :: _ => is_white_space c = false | [] => True end →
  trimStart s = s.
Proof. destruct s as [|c s]; [done|]. simpl. by intros ->. Qed.

Lemma trimStart_clean s :
  match trimStart s with
  | c :: _ => is_white_space c = false
  | [] => True
  end.
Proof.
  induction s as [|c s IH]; [done|]. simpl.
  by destruct (is_white_space c) eqn:Hc.
Qed.

Lemma trimStart_idempotent s : trimStart (trimStart s) = trimStart s.
Proof. apply trimStart_fixed, trimStart_clean. Qed.

Lemma trimEnd_snoc s c :
  trimEnd (s ++ [c]) = if is_white_space c then trimEnd s else s ++ [c].
Proof.
  unfold trimEnd. rewrite reverse_snoc. simpl.
  destruct (is_white_space c); [done|].
  by rewrite reverse_cons, reverse_involutive.
Qed.

Lemma trimEnd_cons c s :
  is_white_space c = false → trimEnd (c :: s) = c :: trimEnd s.
Proof.
  intros Hc. induction s as [|x s IH] using rev_ind.
  - change [c] with ([] ++ [c]). rewrite trimEnd_snoc, Hc. done.
  - rewrite app_comm_cons, !trimEnd_snoc.
    destruct (is_white_space x); [exact IH|done].
Qed.

Lemma trim_idempotent s : trim (trim s) = trim s.
Proof.
  unfold trim.
  assert (Hstart : trimStart (trimEnd (trimStart s)) = trimEnd (trimStart s)).
  { pose proof (trimStart_clean s) as Hc.
    destruct (trimStart s) as [|c t]; [done|].
    rewrite trimEnd_cons by done. simpl. by rewrite Hc. }
  rewrite Hstart. unfold trimEnd at 1 2.
  by rewrite reverse_involutive, trimStart_idempotent.
Qed.

Lemma app_keeps_trimmed env s req :
  Forall (λ m, trim (IMessage.content m) = IMessage.content m) (Message s) →
  Forall (λ m, trim (IMessage.content m) = IMessage.content m)
         (Message (app env s req).2).
Proof.
  intros Hs. destruct req; handler_cases; try done.
  - apply Forall_app_2; [done|]. apply Forall_singleton, trim_idempotent.
  - by apply Forall_delete.
Qed.

(** X17. Stored contents carry no surrounding whitespace: in every store
    the service reaches from the empty database, trimming the content of a
    stored message changes nothing. *)
Theorem reachable_contents_trimmed (session : list (Env * Request)) :
  Forall (λ m, trim (IMessage.content m) = IMessage.content m)
         (Message (run (mkStore [] []) session)).
Proof.
  assert (H : ∀ s, Forall (λ m, trim (IMessage.content m)
                               = IMessage.content m) (Message s) →
              Forall (λ m, trim (IMessage.content m) = IMessage.content m)
                     (Message (run s session))).
  { induction session as [|[env req] session IH]; intros s Hs; [done|].
    cbn [run]. by apply IH, app_keeps_trimmed. }
  apply H. constructor.
Qed.

(** ** Every name of the pattern can come out *)

Lemma draw_for_slot n q :
  n = 5 ∨ n = 7 ∨ n = 999 → 0 ≤ q < n →
  is_random (draw_for q n) = true
  ∧ Math_floor (Number_mul (draw_for q n) (Number_of_Z n)) = Number_of_Z q.
Proof.
  intros Hn Hq.
  assert (H : ∀ n, n = 5 ∨ n = 7 ∨ n = 999 →
            forallb (λ q, is_random (draw_for q n)
              && bool_decide (Math_floor (Number_mul (draw_for q n)
                                                     (Number_of_Z n))
                              = Number_of_Z q)) (seqZ 0 n) = true).
  { intros ? [->|[->| ->]]; vm_compute; reflexivity. }
  specialize (H n Hn). rewrite forallb_forall in H.
  specialize (H q). rewrite andb_true_iff, bool_decide_eq_true in H.
  apply H, list_elem_of_In, elem_of_seqZ. lia.
Qed.

(** X18. The generator reaches the whole pattern: for every adjective of
    the list, every animal of the list and every integer from 1 to 999
    there are outcomes of the random source for which the generated name
    is that adjective, that animal and that number. *)
Theorem every_name_is_generated (adjective animal : jsstring) (n : Z) :
  adjective ∈ adjectives → animal ∈ animals → 1 ≤ n ≤ 999 →
  ∃ random,
    (∀ i, is_random (random i) = true)
    ∧ generateAnonymousSenderId random = adjective ++ animal ++ decimal n.
Proof.
  intros [a Ha]%list_elem_of_lookup_1 [b Hb]%list_elem_of_lookup_1 Hn.
  pose proof (lookup_lt_Some _ _ _ Ha) as Hla.
  pose proof (lookup_lt_Some _ _ _ Hb) as Hlb.
  change (length adjectives) with 5%nat in Hla.
  change (length animals) with 7%nat in Hlb.
  destruct (draw_for_slot 999 (n - 1)) as [Hr0 Hf0]; [tauto|lia|].
  destruct (draw_for_slot 5 (Z.of_nat a)) as [Hr1 Hf1]; [tauto|lia|].
  destruct (draw_for_slot 7 (Z.of_nat b)) as [Hr2 Hf2]; [tauto|lia|].
  exists (λ i, match i with
               | O => draw_for (n - 1) 999
               | S O => draw_for (Z.of_nat a) 5
               | _ => draw_for (Z.of_nat b) 7
               end).
  split; [by intros [|[|i]]|].
  unfold generateAnonymousSenderId.
  change (Z.of_nat (length adjectives)) with 5.
  change (Z.of_nat (length animals)) with 7.
  rewrite Hf0, Hf1, Hf2, numbers_table by lia.
  rewrite !array_get_table, !Nat2Z.id, Ha, Hb by lia.
  replace (n - 1 + 1) with n by lia. done.
Qed.

(** ** More round trips *)



(** X21. A toggle reports what the public info shows afterwards: when a
    toggle answers 200, its [isActive] field is the negation of the flag
    the link had, and the public info of the link then shows that value
    with the rest of the link unchanged. *)
Theorem toggleVisibility_getLinkInfo (s : Store) (linkId : jsstring)
    (key : option jsstring) (i : nat) (link : ILink.t) :
  Link_findOne linkId s = Some (i, link) →
  status (toggleVisibility s linkId key).1 = 200 →
  let r := (toggleVisibility s linkId key).1 in
  let s' := (toggleVisibility s linkId key).2 in
  response_get "isActive" r = Some (JBool (negb (ILink.isActive link)))
  ∧ response_get "linkInfo" (getLinkInfo s' linkId).1
    = Some (linkInfo (ILink.linkId link) (ILink.title link)
              (ILink.description link) (negb (ILink.isActive link))
              (ILink.createdAt link)).
Proof.
  intros Hfind. unfold toggleVisibility.
  destruct key as [[|c k]|]; [done| |done]. rewrite Hfind.
  destruct (negb (validateKey _ _)); [done|].
  unfold Link_update. destruct (linkSchema _); [|done].
  intros _. cbn zeta. cbn [fst snd]. split; [done|].
  set (link' := ILink.set_isActive _ link).
  unfold getLinkInfo.
  assert (Hfind' : Link_findOne linkId
                     (mkStore (<[i:=link']> (Link s)) (Message s))
                   = Some (i, link')).
  { unfold Link_findOne. cbn [Link].
    apply (list_find_insert_same _ _ _ link); [done|].
    by apply Link_findOne_Some in Hfind as [_ ?]. }
  by rewrite Hfind'.
Qed.

(** X22. A deletion removes one message and keeps the others: when a
    deletion answers 200, nothing changes for the links, and the messages
    the link had are the message found under the identifier together with
    the messages its owner retrieves afterwards (each returned with its
    five fields, newest first). *)
Theorem deleteMessage_keeps_others (s : Store) (messageId : jsstring)
    (key : option jsstring) (j : nat) (m : IMessage.t) :
  Message_findOne messageId s = Some (j, m) →
  status (deleteMessage s messageId key).1 = 200 →
  let s' := (deleteMessage s messageId key).2 in
  Link s' = Link s
  ∧ ∃ messages,
      response_get "messages" (getMessages s' (IMessage.linkId m) key).1
      = Some (JArray ((λ m : IMessage.t,
              JObject
                [(js "messageId", JString (IMessage.messageId m));
                 (js "linkId", JString (IMessage.linkId m));
                 (js "content", JString (IMessage.content m));
                 (js "anonymousSenderId",
                  JString (IMessage.anonymousSenderId m));
                 (js "timestamp", JDate (IMessage.timestamp m))])
                <$> messages))
      ∧ filter (λ x, IMessage.linkId x = IMessage.linkId m) (Message s)
        ≡ₚ m :: messages
      ∧ StronglySorted (newest_first IMessage.timestamp) messages.
Proof.
  intros Hm. unfold deleteMessage at 1 2. rewrite Hm.
  destruct key as [[|c k]|]; [done| |done].
  destruct (Link_findOne _ s) as [[i link]|] eqn:Hl; [|done].
  destruct (negb (validateKey _ _)) eqn:Hk; [done|].
  intros _. cbn zeta. cbn [snd]. unfold Message_deleteOne. rewrite Hm.
  set (s' := mkStore _ _). split; [done|].
  exists (Message_find (IMessage.linkId m) s'). split; [|split].
  - unfold getMessages.
    change (Link_findOne (IMessage.linkId m) s')
      with (Link_findOne (IMessage.linkId m) s).
    by rewrite Hl, Hk.
  - unfold Message_find, s'. cbn [Message].
    rewrite sort_desc_Permutation.
    apply Message_findOne_Some in Hm as [Hj _].
    rewrite <- (take_drop_middle (Message s) j m Hj) at 1.
    rewrite delete_take_drop, !filter_app, filter_cons, decide_True by done.
    by rewrite Permutation_middle.
  - apply sort_desc_sorted.
Qed.

(** ** Messages always have their link *)

Lemma app_keeps_link_found env s req linkId :
  is_Some (Link_findOne linkId s) →
  is_Some (Link_findOne linkId (app env s req).2).
Proof.
  intros [[i link] Hfind].
  assert (Hsame : ∀ ms, is_Some (Link_findOne linkId (mkStore (Link s) ms)))
    by (intros ms; by exists (i, link)).
  destruct req as [b|to b|? ?|?|messageId key|target key|?|]; cbn [app].
  - unfold limited, postLinksCreate, Link_save.
    repeat case_match; simplify_eq; cbn [snd]; eauto.
    eexists. unfold Link_findOne. cbn [Link]. by apply list_find_app_l.
  - unfold limited, postMessagesSend, sendMessage, Message_save.
    repeat case_match; simplify_eq; cbn [snd]; eauto.
  - unfold getMessages. repeat case_match; simplify_eq; cbn [snd]; eauto.
  - unfold getLinks. repeat case_match; simplify_eq; cbn [snd]; eauto.
  - unfold deleteMessage, Message_deleteOne.
    repeat case_match; simplify_eq; cbn [snd]; eauto.
  - unfold toggleVisibility.
    destruct key as [[|c k]|]; [eauto| |eauto].
    destruct (Link_findOne target s) as [[j found]|] eqn:Ht; [|eauto].
    destruct (negb (validateKey _ _)); [eauto|].
    unfold Link_update. destruct (linkSchema _); [|eauto]. cbn [snd].
    pose proof (Link_findOne_Some _ _ _ _ Ht) as [Hj Hid].
    unfold Link_findOne in *. cbn [Link].
    destruct (decide (target = linkId)) as [Heq|Hne].
    + rewrite Heq in Ht, Hid. eexists.
      apply (list_find_insert_same _ _ _ found); [exact Ht|exact Hid].
    + exists (i, link).
      rewrite (list_find_insert_other _ _ j found); [done..| |];
        cbn [ILink.set_isActive ILink.linkId]; congruence.
  - unfold getLinkInfo. repeat case_match; simplify_eq; cbn [snd]; eauto.
  - eauto.
Qed.

Lemma app_keeps_messages_linked env s req :
  Forall (λ m, is_Some (Link_findOne (IMessage.linkId m) s)) (Message s) →
  Forall (λ m, is_Some (Link_findOne (IMessage.linkId m) (app env s req).2))
         (Message (app env s req).2).
Proof.
  intros Hs.
  assert (Hold : Forall (λ m, is_Some (Link_findOne (IMessage.linkId m)
                                         (app env s req).2)) (Message s)).
  { eapply Forall_impl; [exact Hs|]. intros m. apply app_keeps_link_found. }
  revert Hold. destruct req; handler_cases; try done; intros Hold.
  - apply Forall_app_2; [done|]. apply Forall_singleton.
    cbn [IMessage.linkId]. unfold Link_findOne in *. cbn [Link] in *. eauto.
  - by apply Forall_delete.
Qed.

(** X23. Messages are never orphaned: in every store the service reaches
    from the empty database, each message's [linkId] is the identifier of
    a stored link; so a deletion there is never answered "Associated link
    not found". *)
Theorem reachable_messages_linked (session : list (Env * Request)) :
  let s := run (mkStore [] []) session in
  Forall (λ m, is_Some (Link_findOne (IMessage.linkId m) s)) (Message s)
  ∧ ∀ messageId key,
      (deleteMessage s messageId key).1
      ≠ error 404 "Associated link not found".
Proof.
  intros s.
  assert (H : ∀ s0,
    Forall (λ m, is_Some (Link_findOne (IMessage.linkId m) s0)) (Message s0) →
    Forall (λ m, is_Some (Link_findOne (IMessage.linkId m) (run s0 session)))
           (Message (run s0 session))).
  { induction session as [|[env req] session IH]; intros s0 Hs0; [done|].
    cbn [run]. by apply IH, app_keeps_messages_linked. }
  assert (Hs : Forall (λ m, is_Some (Link_findOne (IMessage.linkId m) s))
                      (Message s)) by (apply H; constructor).
  split; [exact Hs|]. intros messageId key. unfold deleteMessage.
  destruct key as [[|c k]|]; [done| |done].
  destruct (Message_findOne messageId s) as [[j m]|] eqn:Hm; [|done].
  apply Message_findOne_Some in Hm as [Hj _].
  rewrite Forall_lookup in Hs. destruct (Hs j m Hj) as [[i link] ->].
  by destruct (negb (validateKey _ _)).
Qed.


End Service.

(** * The properties on the sample data *)

(** The example of the specification, run on the model: create a link with
    the key [secret123], send [hello] to it, fetch with the key (one
    message, content [hello]), fetch with a wrong key (401). *)
Example specification_example :
  let env := mkEnv 1000 (js "a1b2c3d4-1111-4111-8111-111111111111")
                   sample_random false in
  let created :=
    app no_digits no_compare env (mkStore [] [])
        (PostLinksCreate (Some sample_create_body)) in
  let sent :=
    app no_digits no_compare sample_env created.2
        (PostMessagesSend (js "a1b2c3d4") (Some sample_send_body)) in
  let fetched := getMessages sent.2 (js "a1b2c3d4") (Some (js "secret123")) in
  let refused := getMessages sent.2 (js "a1b2c3d4") (Some (js "wrong")) in
  status created.1 = 201
  ∧ status sent.1 = 201
  ∧ fetched.1 =
      mkResponse 200 (Json (JObject
        [(js "success", JBool true);
         (js "linkInfo",
          linkInfo (js "a1b2c3d4") (js "Anonymous Messages")
                   (js "Send me anonymous messages") true 1000);
         (js "messages",
          JArray
            [JObject
               [(js "messageId",
                 JString (js "9e8d7c6b-5a49-4382-b716-05f4e3d2c1b0"));
                (js "linkId", JString (js "a1b2c3d4"));
                (js "content", JString (js "hello"));
                (js "anonymousSenderId", JString (js "HiddenFox999"));
                (js "timestamp", JDate 3000)]]);
         (js "totalMessages", JNumber 1)]))
  ∧ refused.1 = error 401 "Invalid key".
Proof. vm_compute. repeat split. Qed.


(** The claim C2 as it was stated fails on [padded_content]: its trimmed
    length is 1000, and the request is rejected as too long. *)
Lemma sendMessage_rejects_padded_content :
  (1 ≤ length (trim padded_content) ≤ 1000)%nat
  ∧ length padded_content = 1001%nat
  ∧ (sendMessage no_digits sample_env sample_store (js "a1b2c3d4")
       (Some padded_content)).1
    = error 400 "Message too long (max 1000 characters)".
Proof.
  assert (H : length (trim padded_content) = 1000%nat)
    by (vm_compute; reflexivity).
  split; [rewrite H; lia|]. split; vm_compute; reflexivity.
Qed.

(** C2 as amended, on a content that is accepted. *)
Lemma sendMessage_validation_witness :
  status (sendMessage no_digits sample_env sample_store (js "a1b2c3d4")
            (Some (js " hello "))).1 ≠ 400.
Proof.
  apply (proj1 (sendMessage_validation no_digits sample_env sample_store
                  (js "a1b2c3d4") (Some (js " hello ")))).
  exists (js " hello "). split; [reflexivity|]. split; [discriminate|].
  simpl. lia.
Defined.

Lemma sample_store_wf : store_wf sample_store.
Proof. apply (bool_decide_unpack _). vm_compute. exact I. Defined.

(** C3 on the sample data: the message [" hello "] is stored trimmed, under
    the identifier of the environment and the name the draws give. *)
Lemma sendMessage_spec_witness :
  trim (js " hello ") ≠ [] ∧ (length (js " hello ") ≤ 1000)%nat
  ∧ store_wf sample_store ∧ fresh_uuid sample_env sample_store
  ∧ (sendMessage no_digits sample_env sample_store (js "a1b2c3d4")
       (Some (js " hello "))).2
    = mkStore [sample_link]
        [sample_message;
         IMessage.mk (js "9e8d7c6b-5a49-4382-b716-05f4e3d2c1b0")
           (js "a1b2c3d4") (js "hello") (js "HiddenFox999") 3000].
Proof.
  assert (H1 : trim (js " hello ") ≠ []) by discriminate.
  assert (H2 : (length (js " hello ") ≤ 1000)%nat) by (simpl; lia).
  assert (H3 : fresh_uuid sample_env sample_store).
  { split; [reflexivity|]. apply (bool_decide_unpack _). vm_compute. exact I. }
  split; [exact H1|]. split; [exact H2|]. split; [exact sample_store_wf|].
  split; [exact H3|].
  pose proof (sendMessage_spec no_digits sample_env sample_store
                (js "a1b2c3d4") (js " hello ") H1 H2 sample_store_wf H3) as H.
  apply (f_equal snd) in H. exact H.
Defined.

(** C4 on the sample data. *)
Lemma toggleVisibility_twice_witness :
  store_wf sample_store
  ∧ Link_findOne (js "a1b2c3d4") sample_store = Some (0%nat, sample_link)
  ∧ ∃ r1 s1 r2,
      toggleVisibility sample_store (js "a1b2c3d4") (Some (js "secret123"))
        = (r1, s1)
      ∧ status r1 = 200
      ∧ Link_findOne (js "a1b2c3d4") s1
        = Some (0%nat, ILink.set_isActive false sample_link)
      ∧ toggleVisibility s1 (js "a1b2c3d4") (Some (js "secret123"))
        = (r2, sample_store)
      ∧ status r2 = 200.
Proof.
  split; [exact sample_store_wf|]. split; [reflexivity|].
  exact (proj1 (toggleVisibility_twice sample_store (js "a1b2c3d4") 0
                  sample_link sample_store_wf eq_refl)).
Defined.

Lemma busy_store_wf : store_wf busy_store.
Proof. apply (bool_decide_unpack _). vm_compute. exact I. Defined.

(** C5 on the store with two links: of the four stored messages the three
    of the link are returned, the newest first, and not the message of the
    other link. *)
Lemma getMessages_spec_witness :
  store_wf busy_store
  ∧ Link_findOne (js "a1b2c3d4") busy_store = Some (0%nat, sample_link)
  ∧ (∃ messages,
       getMessages busy_store (js "a1b2c3d4") (Some (js "secret123"))
       = (mkResponse 200 (Json (JObject
            [(js "success", JBool true);
             (js "linkInfo",
              JObject
                [(js "linkId", JString (js "a1b2c3d4"));
                 (js "title", JString (js "Anonymous Messages"));
                 (js "description",
                  JString (js "Send me anonymous messages"));
                 (js "isActive", JBool true);
                 (js "createdAt", JDate 1000)]);
             (js "messages",
              JArray ((λ m : IMessage.t,
             JObject
               [(js "messageId", JString (IMessage.messageId m));
                (js "linkId", JString (IMessage.linkId m));
                (js "content", JString (IMessage.content m));
                (js "anonymousSenderId",
                 JString (IMessage.anonymousSenderId m));
                (js "timestamp", JDate (IMessage.timestamp m))])
                <$> messages));
             (js "totalMessages", JNumber (Z.of_nat (length messages)))])),
          busy_store)
       ∧ messages ≡ₚ [sample_message; later_message; middle_message]
       ∧ StronglySorted (newest_first IMessage.timestamp) messages
       ∧ length messages = 3%nat)
  ∧ response_get "messages"
      (getMessages busy_store (js "a1b2c3d4") (Some (js "secret123"))).1
    = Some (JArray
        ((λ m : IMessage.t,
             JObject
               [(js "messageId", JString (IMessage.messageId m));
                (js "linkId", JString (IMessage.linkId m));
                (js "content", JString (IMessage.content m));
                (js "anonymousSenderId",
                 JString (IMessage.anonymousSenderId m));
                (js "timestamp", JDate (IMessage.timestamp m))])
         <$> [later_message; middle_message; sample_message])).
Proof.
  split; [exact busy_store_wf|]. split; [reflexivity|].
  split; [|reflexivity].
  exact (getMessages_spec busy_store (js "a1b2c3d4") 0 sample_link
           busy_store_wf eq_refl).
Defined.

(** The claim C6 as it was stated fails on a request without key: no
    message has the identifier, and the answer is unauthorized, not
    not-found. *)
Lemma deleteMessage_without_key :
  Message_findOne (js "no-such-message") sample_store = None
  ∧ deleteMessage sample_store (js "no-such-message") None
    = (error 401 "Key is required", sample_store)
  ∧ status (deleteMessage sample_store (js "no-such-message") None).1 ≠ 404.
Proof. split; [reflexivity|]. split; [reflexivity|]. discriminate. Qed.

(** C6 as amended, on the sample data: the owner deletes the one message
    of the link, and the retrieval that follows returns none. *)
Lemma deleteMessage_spec_witness :
  store_wf sample_store ∧ js "secret123" ≠ []
  ∧ ∃ r s',
      deleteMessage sample_store (IMessage.messageId sample_message)
        (Some (js "secret123")) = (r, s')
      ∧ status r = 200
      ∧ Message s' = []
      ∧ ∃ r' messages,
          getMessages s' (js "a1b2c3d4") (Some (js "secret123")) = (r', s')
          ∧ status r' = 200
          ∧ Forall (λ m, IMessage.messageId m ≠ js "0f1e2d3c-4b5a-4978-8695-a4b3c2d1e0f9")
                   messages.
Proof.
  assert (Hk : js "secret123" ≠ []) by discriminate.
  split; [exact sample_store_wf|]. split; [exact Hk|].
  destruct (deleteMessage_spec sample_store (IMessage.messageId sample_message)
              (js "secret123") sample_store_wf Hk)
    as (r & s' & Hdel & Hr & _ & _ & Hm & r' & messages & Hget & Hr' & _ & Hall).
  exists r, s'. split; [exact Hdel|]. split; [exact Hr|]. split; [exact Hm|].
  exists r', messages. split; [exact Hget|]. split; [exact Hr'|exact Hall].
Defined.



(** C8 on the sample data. *)
Lemma getLinks_spec_witness :
  js "secret123" ≠ []
  ∧ ∃ links,
      (getLinks sample_store (Some (js "secret123"))).2 = sample_store
      ∧ links ≡ₚ [sample_link]
      ∧ body (getLinks sample_store (Some (js "secret123"))).1
        = Json (JObject
            [(js "success", JBool true);
             (js "links",
              JArray ((λ link : ILink.t,
                JObject
                  [(js "linkId", JString (ILink.linkId link));
                   (js "title", JString (ILink.title link));
                   (js "description", JString (ILink.description link));
                   (js "isActive", JBool (ILink.isActive link));
                   (js "createdAt", JDate (ILink.createdAt link));
                   (js "messageCount",
                    JNumber (Z.of_nat (length
                      (filter (λ m, IMessage.linkId m = ILink.linkId link)
                              (Message sample_store)))));
                   (js "shareUrl",
                    JString (js "/share/" ++ ILink.linkId link))])
                <$> links));
             (js "totalLinks", JNumber (Z.of_nat (length links)))]).
Proof.
  assert (Hk : js "secret123" ≠ []) by discriminate.
  split; [exact Hk|].
  destruct (getLinks_spec sample_store (js "secret123") Hk)
    as (links & Heq & Hperm & _).
  exists links. split; [reflexivity|]. split; [exact Hperm|].
  rewrite Heq. reflexivity.
Defined.

(** C9 on the sample draws: the largest Number below one gives 999. *)
Lemma generateAnonymousSenderId_pattern_witness :
  (∀ i, is_random (sample_random i) = true)
  ∧ ∃ adjective animal n,
      adjective ∈ adjectives ∧ animal ∈ animals ∧ 1 ≤ n ≤ 999
      ∧ generateAnonymousSenderId no_digits sample_random
        = adjective ++ animal ++ decimal n.
Proof.
  assert (H : ∀ i, is_random (sample_random i) = true)
    by (intros [|[|i]]; reflexivity).
  split; [exact H|].
  exact (generateAnonymousSenderId_pattern no_digits sample_random H).
Defined.

(** C10 on the sample data: no key, and a message that does not exist. *)
Lemma missing_key_unauthorized_witness :
  truthy None = false
  ∧ deleteMessage sample_store (js "no-such-message") None
    = (error 401 "Key is required", sample_store).
Proof.
  split; [reflexivity|].
  exact (proj1 (proj2 (missing_key_unauthorized sample_store
                         (js "no-such-message") None eq_refl))).
Defined.

(** * The further properties on the sample data *)


(** X3 on the store with two links: after the send the link has four
    messages, the new one among them. *)
Lemma sendMessage_getMessages_witness :
  store_wf busy_store
  ∧ Link_findOne (js "a1b2c3d4") busy_store = Some (0%nat, sample_link)
  ∧ status (sendMessage no_digits sample_env busy_store (js "a1b2c3d4")
              (Some (js " hello "))).1 = 201
  ∧ ∃ messages,
      response_get "messages"
        (getMessages
           (sendMessage no_digits sample_env busy_store (js "a1b2c3d4")
              (Some (js " hello "))).2
           (js "a1b2c3d4") (Some (js "secret123"))).1
      = Some (JArray ((λ m : IMessage.t,
             JObject
               [(js "messageId", JString (IMessage.messageId m));
                (js "linkId", JString (IMessage.linkId m));
                (js "content", JString (IMessage.content m));
                (js "anonymousSenderId",
                 JString (IMessage.anonymousSenderId m));
                (js "timestamp", JDate (IMessage.timestamp m))])
                <$> messages))
      ∧ response_get "totalMessages"
          (getMessages
             (sendMessage no_digits sample_env busy_store (js "a1b2c3d4")
                (Some (js " hello "))).2
             (js "a1b2c3d4") (Some (js "secret123"))).1
        = Some (JNumber 4)
      ∧ messages ≡ₚ
          [IMessage.mk (js "9e8d7c6b-5a49-4382-b716-05f4e3d2c1b0")
             (js "a1b2c3d4") (js "hello") (js "HiddenFox999") 3000;
           sample_message; later_message; middle_message].
Proof.
  assert (H : status (sendMessage no_digits sample_env busy_store
                        (js "a1b2c3d4") (Some (js " hello "))).1 = 201)
    by reflexivity.
  split; [exact busy_store_wf|]. split; [reflexivity|]. split; [exact H|].
  destruct (sendMessage_getMessages no_digits sample_env busy_store
              (js "a1b2c3d4") (Some (js " hello ")) 0 sample_link
              busy_store_wf eq_refl H) as (c & messages & Hc & Hget & Hperm).
  injection Hc as <-.
  change (ILink.userKey sample_link) with (js "secret123") in Hget.
  exists messages. rewrite Hget.
  split; [reflexivity|]. split; [reflexivity|]. exact Hperm.
Defined.

(** X4 on the sample data. *)
Lemma getLinkInfo_spec_witness :
  ILink.userKey sample_link ≠ []
  ∧ response_get "linkInfo"
      (getMessages sample_store (js "a1b2c3d4") (Some (js "secret123"))).1
    = response_get "linkInfo" (getLinkInfo sample_store (js "a1b2c3d4")).1.
Proof.
  assert (H : ILink.userKey sample_link ≠ []) by discriminate.
  split; [exact H|].
  exact (proj2 (getLinkInfo_spec sample_store (js "a1b2c3d4")) H).
Defined.

(** X5 on the sample data: a send to a link that does not exist. *)
Lemma failure_leaves_store_witness :
  (status (app no_digits no_compare sample_env sample_store
             (PostMessagesSend (js "nowhere") (Some sample_send_body))).1 ≠ 200
   ∧ status (app no_digits no_compare sample_env sample_store
               (PostMessagesSend (js "nowhere") (Some sample_send_body))).1 ≠ 201)
  ∧ (app no_digits no_compare sample_env sample_store
       (PostMessagesSend (js "nowhere") (Some sample_send_body))).2
    = sample_store.
Proof.
  assert (H : status (app no_digits no_compare sample_env sample_store
                        (PostMessagesSend (js "nowhere")
                           (Some sample_send_body))).1 ≠ 200
              ∧ status (app no_digits no_compare sample_env sample_store
                          (PostMessagesSend (js "nowhere")
                             (Some sample_send_body))).1 ≠ 201)
    by (split; discriminate).
  split; [exact H|].
  exact (failure_leaves_store no_digits no_compare sample_env sample_store
           (PostMessagesSend (js "nowhere") (Some sample_send_body))
           (or_intror H)).
Defined.

(** X7 on the sample data: the owner's toggle flips the flag and nothing
    else. *)
Lemma links_persist_witness :
  Link sample_store !! 0%nat = Some sample_link
  ∧ ∃ b,
      Link (app no_digits no_compare sample_env sample_store
              (PostToggleVisibility (js "a1b2c3d4")
                 (Some (js "secret123")))).2 !! 0%nat
      = Some (ILink.set_isActive b sample_link).
Proof.
  split; [reflexivity|].
  destruct (links_persist no_digits no_compare sample_env sample_store
              (PostToggleVisibility (js "a1b2c3d4") (Some (js "secret123")))
              0 sample_link eq_refl) as (b & Hb & _).
  exists b. exact Hb.
Defined.

(** X9 on the sample data. *)
Lemma toggled_link_and_sending_witness :
  store_wf sample_store
  ∧ Link_findOne (js "a1b2c3d4") sample_store = Some (0%nat, sample_link)
  ∧ trim (js "hello") ≠ [] ∧ (length (js "hello") ≤ 1000)%nat
  ∧ status (sendMessage no_digits sample_env
              (toggleVisibility sample_store (js "a1b2c3d4")
                 (Some (js "secret123"))).2
              (js "a1b2c3d4") (Some (js "hello"))).1 = 403.
Proof.
  assert (H1 : trim (js "hello") ≠ []) by discriminate.
  assert (H2 : (length (js "hello") ≤ 1000)%nat) by (simpl; lia).
  split; [exact sample_store_wf|]. split; [reflexivity|].
  split; [exact H1|]. split; [exact H2|].
  pose proof (toggled_link_and_sending no_digits sample_env sample_store
                (js "a1b2c3d4") (js "hello") 0 sample_link sample_store_wf
                eq_refl H1 H2) as H.
  apply (f_equal (λ r, status r.1)) in H. exact H.
Defined.

(** X10 on the sample data. *)
Lemma success_needs_key_witness :
  status (app no_digits no_compare sample_env sample_store
            (GetMessages (js "a1b2c3d4") (Some (js "secret123")))).1 = 200
  ∧ ∃ i link,
      Link_findOne (js "a1b2c3d4") sample_store = Some (i, link)
      ∧ Some (js "secret123") = Some (ILink.userKey link).
Proof.
  assert (H : status (app no_digits no_compare sample_env sample_store
                        (GetMessages (js "a1b2c3d4")
                           (Some (js "secret123")))).1 = 200) by reflexivity.
  split; [exact H|].
  exact (success_needs_key no_digits no_compare sample_env sample_store
           (GetMessages (js "a1b2c3d4") (Some (js "secret123"))) H).
Defined.

(** X11 on the sample data. *)
Lemma deleteMessage_twice_witness :
  store_wf sample_store
  ∧ status (deleteMessage sample_store (IMessage.messageId sample_message)
              (Some (js "secret123"))).1 = 200
  ∧ (deleteMessage
       (deleteMessage sample_store (IMessage.messageId sample_message)
          (Some (js "secret123"))).2
       (IMessage.messageId sample_message) (Some (js "secret123"))).1
    = error 404 "Message not found".
Proof.
  assert (H : status (deleteMessage sample_store
                        (IMessage.messageId sample_message)
                        (Some (js "secret123"))).1 = 200) by reflexivity.
  split; [exact sample_store_wf|]. split; [exact H|].
  pose proof (deleteMessage_twice sample_store
                (IMessage.messageId sample_message) (Some (js "secret123"))
                sample_store_wf H) as H'.
  apply (f_equal fst) in H'. exact H'.
Defined.

(** X12 on the sample data. *)
Lemma sendMessage_isolation_witness :
  js "elsewhere" ≠ js "a1b2c3d4"
  ∧ (getLinkInfo
       (sendMessage no_digits sample_env sample_store (js "a1b2c3d4")
          (Some (js "hello"))).2 (js "a1b2c3d4")).1
    = (getLinkInfo sample_store (js "a1b2c3d4")).1.
Proof.
  assert (H : js "elsewhere" ≠ js "a1b2c3d4") by discriminate.
  split; [exact H|].
  exact (proj2 (sendMessage_isolation no_digits sample_env sample_store
                  (js "a1b2c3d4") (js "elsewhere") (Some (js "hello")) H)
               (js "a1b2c3d4")).
Defined.

(** X13 on the sample data. *)
Lemma toggleVisibility_isolation_witness :
  js "elsewhere" ≠ js "a1b2c3d4"
  ∧ (getLinkInfo
       (toggleVisibility sample_store (js "a1b2c3d4")
          (Some (js "secret123"))).2 (js "elsewhere")).1
    = (getLinkInfo sample_store (js "elsewhere")).1.
Proof.
  assert (H : js "elsewhere" ≠ js "a1b2c3d4") by discriminate.
  split; [exact H|].
  exact (proj1 (proj2 (toggleVisibility_isolation no_digits sample_env
                         sample_store (js "a1b2c3d4") (js "elsewhere")
                         (Some (js "secret123")) H))).
Defined.

(** X14 on the sample data. *)
Lemma deleteMessage_isolation_witness :
  Message_findOne (IMessage.messageId sample_message) sample_store
  = Some (0%nat, sample_message)
  ∧ IMessage.linkId sample_message ≠ js "elsewhere"
  ∧ (getLinkInfo
       (deleteMessage sample_store (IMessage.messageId sample_message)
          (Some (js "secret123"))).2 (js "elsewhere")).1
    = (getLinkInfo sample_store (js "elsewhere")).1.
Proof.
  assert (H : IMessage.linkId sample_message ≠ js "elsewhere")
    by discriminate.
  split; [reflexivity|]. split; [exact H|].
  exact (proj2 (deleteMessage_isolation sample_store
                  (IMessage.messageId sample_message) (js "elsewhere")
                  (Some (js "secret123")) 0 sample_message eq_refl H)).
Defined.


(** X16 on the sample data. *)
Lemma messageCount_is_totalMessages_witness :
  store_wf sample_store
  ∧ Link_findOne (js "a1b2c3d4") sample_store = Some (0%nat, sample_link)
  ∧ ∃ n entries entry,
      response_get "totalMessages"
        (getMessages sample_store (js "a1b2c3d4") (Some (js "secret123"))).1
      = Some (JNumber n)
      ∧ response_get "links" (getLinks sample_store (Some (js "secret123"))).1
        = Some (JArray entries)
      ∧ entry ∈ entries
      ∧ json_get "linkId" entry = Some (JString (js "a1b2c3d4"))
      ∧ json_get "messageCount" entry = Some (JNumber n).
Proof.
  split; [exact sample_store_wf|]. split; [reflexivity|].
  exact (messageCount_is_totalMessages sample_store (js "a1b2c3d4") 0
           sample_link sample_store_wf eq_refl).
Defined.

(** X18 on the sample data: the name [ShadowRaven999]. *)
Lemma every_name_is_generated_witness :
  js "Shadow" ∈ adjectives ∧ js "Raven" ∈ animals ∧ 1 ≤ 999 ≤ 999
  ∧ ∃ random,
      (∀ i, is_random (random i) = true)
      ∧ generateAnonymousSenderId no_digits random = js "ShadowRaven999".
Proof.
  assert (H1 : js "Shadow" ∈ adjectives)
    by (apply (bool_decide_unpack _); vm_compute; exact I).
  assert (H2 : js "Raven" ∈ animals)
    by (apply (bool_decide_unpack _); vm_compute; exact I).
  assert (H3 : 1 ≤ 999 ≤ 999) by lia.
  split; [exact H1|]. split; [exact H2|]. split; [exact H3|].
  exact (every_name_is_generated no_digits (js "Shadow") (js "Raven") 999
           H1 H2 H3).
Defined.



(** X21 on the sample data. *)
Lemma toggleVisibility_getLinkInfo_witness :
  Link_findOne (js "a1b2c3d4") sample_store = Some (0%nat, sample_link)
  ∧ status (toggleVisibility sample_store (js "a1b2c3d4")
              (Some (js "secret123"))).1 = 200
  ∧ response_get "isActive"
      (toggleVisibility sample_store (js "a1b2c3d4")
         (Some (js "secret123"))).1 = Some (JBool false).
Proof.
  assert (H : status (toggleVisibility sample_store (js "a1b2c3d4")
                        (Some (js "secret123"))).1 = 200) by reflexivity.
  split; [reflexivity|]. split; [exact H|].
  exact (proj1 (toggleVisibility_getLinkInfo sample_store (js "a1b2c3d4")
                  (Some (js "secret123")) 0 sample_link eq_refl H)).
Defined.

(** X22 on the store with two links: the owner deletes the newest message
    of the link, and the two others are what the retrieval returns. *)
Lemma deleteMessage_keeps_others_witness :
  Message_findOne (IMessage.messageId later_message) busy_store
  = Some (1%nat, later_message)
  ∧ status (deleteMessage busy_store (IMessage.messageId later_message)
              (Some (js "secret123"))).1 = 200
  ∧ Link (deleteMessage busy_store (IMessage.messageId later_message)
            (Some (js "secret123"))).2 = Link busy_store
  ∧ ∃ messages,
      response_get "messages"
        (getMessages
           (deleteMessage busy_store (IMessage.messageId later_message)
              (Some (js "secret123"))).2
           (js "a1b2c3d4") (Some (js "secret123"))).1
      = Some (JArray ((λ m : IMessage.t,
             JObject
               [(js "messageId", JString (IMessage.messageId m));
                (js "linkId", JString (IMessage.linkId m));
                (js "content", JString (IMessage.content m));
                (js "anonymousSenderId",
                 JString (IMessage.anonymousSenderId m));
                (js "timestamp", JDate (IMessage.timestamp m))])
                <$> messages))
      ∧ [sample_message; later_message; middle_message]
        ≡ₚ later_message :: messages
      ∧ StronglySorted (newest_first IMessage.timestamp) messages.
Proof.
  assert (H : status (deleteMessage busy_store
                        (IMessage.messageId later_message)
                        (Some (js "secret123"))).1 = 200) by reflexivity.
  split; [reflexivity|]. split; [exact H|].
  exact (deleteMessage_keeps_others busy_store
           (IMessage.messageId later_message) (Some (js "secret123"))
           1 later_message eq_refl H).
Defined.
